(** * ipk-mtrip: the reflector, the meter and the command line

    A shallow embedding of [ipk-mtrip.cc]: [main], [argument_parser],
    [interrupt_handler], [Reflector::init] and [Meter::init].

    The process is a computation over an explicit state holding what the
    outside world feeds it (standard input, arriving datagrams, the moment
    of an interrupt) and what it has produced so far (standard output,
    standard error, the calls made on the socket).  [exit], a receive that
    never completes and an exhausted iteration budget end a computation
    early.

    Two things the program can do lie outside the model: being killed for
    an array larger than its stack, and reading past an array that holds no
    NUL.  What is stated about the turns the meter takes and about what it
    prints carries the bounds that exclude both: a probe size of at most
    [UDP_PAYLOAD_MAX], and receives that leave the array [terminated]. *)

From Stdlib.Strings Require Import String Ascii Byte.
From Stdlib Require Import DecimalString.
From Stdlib Require Import ZArith List Bool Lia.
Import ListNotations.
Open Scope string_scope.
Open Scope list_scope.
Open Scope Z_scope.

(** ** The C library, as far as the program calls it *)

Module Libc.

(** <stdlib.h> *)
Definition EXIT_SUCCESS : Z := 0.
Definition EXIT_FAILURE : Z := 1.

(** <signal.h> *)
Definition SIGINT : Z := 2.

(** Conversions to the fixed-width integer types (two's complement, LP64). *)
Definition to_int (z : Z) : Z := (z + 2 ^ 31) mod 2 ^ 32 - 2 ^ 31.
Definition to_unsigned_int (z : Z) : Z := z mod 2 ^ 32.
Definition to_unsigned_short (z : Z) : Z := z mod 2 ^ 16.
Definition to_size_t (z : Z) : Z := z mod 2 ^ 64.

Definition LONG_MAX : Z := 2 ^ 63 - 1.
Definition LONG_MIN : Z := - 2 ^ 63.

(** <ctype.h>, "C" locale *)
Definition isspace (c : ascii) : bool :=
  let n := nat_of_ascii c in
  (Nat.eqb n 32 || (Nat.leb 9 n && Nat.leb n 13))%bool.

Definition isprint (c : ascii) : bool :=
  let n := nat_of_ascii c in
  (Nat.leb 32 n && Nat.leb n 126)%bool.

Definition digit_value (c : ascii) : option Z :=
  let n := nat_of_ascii c in
  if (Nat.leb 48 n && Nat.leb n 57)%bool then Some (Z.of_nat n - 48) else None.

Fixpoint skip_spaces (s : string) : string :=
  match s with
  | String c rest => if isspace c then skip_spaces rest else s
  | EmptyString => s
  end.

(** The value of the longest run of decimal digits at the head of [s],
    continuing from [acc]. *)
Fixpoint digits (acc : Z) (s : string) : Z :=
  match s with
  | String c rest =>
      match digit_value c with
      | Some d => digits (10 * acc + d) rest
      | None => acc
      end
  | EmptyString => acc
  end.

(** [strtol(nptr, NULL, 10)]: white space, an optional sign, digits; the
    result saturates at the bounds of [long]. *)
Definition strtol10 (nptr : string) : Z :=
  let v :=
    match skip_spaces nptr with
    | String "-" rest => - digits 0 rest
    | String "+" rest => digits 0 rest
    | s => digits 0 s
    end in
  Z.max LONG_MIN (Z.min LONG_MAX v).

(** glibc: [atoi(nptr)] is [(int) strtol(nptr, NULL, 10)]. *)
Definition atoi (nptr : string) : Z := to_int (strtol10 nptr).

(** A [float] is stored by the program and never computed with; the value
    is kept as the text [atof] was applied to. *)
Inductive float : Type :=
| atof (nptr : string).

(** Writing [bytes] at the start of the array [s]. The array keeps its
    size: a write past its end is not modelled. *)
Definition store (s : list byte) (bytes : list byte) : list byte :=
  firstn (length s) (bytes ++ skipn (length bytes) s).

(** [bzero(s, n)] on an array given by its bytes. *)
Definition bzero (s : list byte) (n : Z) : list byte :=
  store s (repeat x00 (Z.to_nat n)).

(** The bytes of the NUL-terminated string at the start of [s]. *)
Fixpoint c_str (s : list byte) : list byte :=
  match s with
  | [] => []
  | b :: rest => if Byte.eqb b x00 then [] else b :: c_str rest
  end.

(** What one [fgets] call takes from the stream: at most [k] bytes, up to
    and including the first newline. Returns the line and what is left. *)
Fixpoint read_line (k : nat) (stream : list byte) : list byte * list byte :=
  match k, stream with
  | S k', b :: rest =>
      if Byte.eqb b x0a then ([b], rest)
      else let (line, left) := read_line k' rest in (b :: line, left)
  | _, _ => ([], stream)
  end.

(** [fgets(s, n, stream)] (glibc): nothing happens for [n <= 0]; for
    [n = 1] only the terminator is stored and nothing is read; otherwise
    up to [n - 1] bytes of a line are stored, followed by the terminator,
    and at end of file with nothing read the array is left as it was.
    Returns the array and the rest of the stream. *)
Definition fgets (s : list byte) (n : Z) (stream : list byte)
  : list byte * list byte :=
  if n <=? 0 then (s, stream)
  else if n =? 1 then (store s [x00], stream)
  else
    let (line, left) := read_line (Z.to_nat (n - 1)) stream in
    match line with
    | [] => (s, stream)
    | _ => (store s (line ++ [x00]), left)
    end.

(** Storage whose content was never set: [n] bytes of whatever [garbage]
    was there. *)
Definition uninitialised (n : nat) (garbage : list byte) : list byte :=
  firstn n (garbage ++ repeat x00 n).

(** Decimal output of an [int], as [operator<<] prints it. *)
Definition decimal (z : Z) : string := NilZero.string_of_int (Z.to_int z).

End Libc.

(** ** getopt(3)

    [argument_parser] leaves the mode word behind with [optind++] and then
    calls [getopt] until it returns -1. The successive return values, with
    [optarg] and [optopt] as they stand at each return, are computed here
    from the elements of [argv] still ahead of [optind]. [opterr] is 0, so
    [getopt] prints nothing itself. The option strings of this program
    declare options with a required argument only ("h:p:s:t:" and "p:");
    an option declared without a colon takes none. *)

Module Getopt.

Inductive ret : Type :=
| opt (c : ascii) (optarg : string)   (* an option character of optstring *)
| unknown (optopt : ascii).           (* '?' *)

(** Whether [c] is declared in [optstring], and if so whether a colon
    follows it. A colon is never an option character. *)
Fixpoint declared (c : ascii) (optstring : string) : option bool :=
  match optstring with
  | EmptyString => None
  | String o rest =>
      if (Ascii.eqb o c && negb (Ascii.eqb c ":"))%bool
      then Some match rest with String ":" _ => true | _ => false end
      else declared c rest
  end.

(** An element that is not "-" alone and starts with '-' holds option
    characters; "--" ends the options. Any other element is an operand:
    GNU getopt steps over it, unless POSIXLY_CORRECT is set, in which case
    the scan ends there. An option that requires an argument takes the
    rest of its element or, if there is none, the next element; if there
    is no next element either, '?' is returned with the option character
    in [optopt]. *)
Fixpoint scan (posixly_correct : bool) (optstring : string)
         (argv : list string) : list ret :=
  match argv with
  | [] => []
  | String "-" (String c0 cs0) :: rest =>
      if (Ascii.eqb c0 "-" && String.eqb cs0 EmptyString)%bool then []
      else
        (fix cluster (chars : string) : list ret :=
           match chars with
           | EmptyString => scan posixly_correct optstring rest
           | String c cs =>
               match declared c optstring with
               | None => unknown c :: cluster cs
               | Some false => opt c EmptyString :: cluster cs
               | Some true =>
                   match cs with
                   | String _ _ => opt c cs :: scan posixly_correct optstring rest
                   | EmptyString =>
                       match rest with
                       | [] => [unknown c]
                       | optarg :: rest' =>
                           opt c optarg :: scan posixly_correct optstring rest'
                       end
                   end
               end
           end) (String c0 cs0)
  | _ :: rest =>
      if posixly_correct then [] else scan posixly_correct optstring rest
  end.

End Getopt.

(** ** Runtime configurations *)

(** Modelled from the spec: [ipk-mtrip.h], which declares
    [MTripConfiguration] and its two modes, is not among the sources. The
    spec's design notes give the modes as a tagged variant {Reflector,
    Meter}; the members are the arguments the constructors are called with
    in [argument_parser], lines 226 and 270. *)

Inductive MTripConfiguration : Type :=
| Meter (m_host_name : string) (m_port : Z) (m_probe_size : Z)
        (m_measurment_time : Libc.float)
| Reflector (m_port : Z).

(** ** The process *)

(** What has happened on the socket. *)
Inductive wire : Type :=
| bound (port : Z)
| connected (host : string) (port : Z)
| received (datagram : option (list byte))
| sent (octets : list byte).

Record process : Type := mkProcess {
  (* the outside world *)
  posixly_correct : bool;                (* the environment variable *)
  stack : list byte;                     (* what automatic storage holds *)
  stdin : list byte;                     (* standard input, then end of file *)
  network : list (option (list byte));   (* what the successive receives meet:
                                            a datagram, or a failure *)
  sigint : option nat;                   (* SIGINT arrives during the blocking
                                            call after this many others *)
  (* what the process has done *)
  stdout : string;
  stderr : string;
  socket : list wire
}.

Inductive outcome : Type :=
| exited (status : Z)   (* exit(status), or main returned status *)
| blocked               (* waiting for a datagram that never arrives *)
| out_of_fuel.          (* still looping when the iteration budget ran out *)

Inductive result (A : Type) : Type :=
| value (a : A)
| halt (o : outcome).
Arguments value {A} a.
Arguments halt {A} o.

Definition M (A : Type) : Type := process -> result A * process.

Definition ret {A} (a : A) : M A := fun p => (value a, p).

Definition bind {A B} (m : M A) (k : A -> M B) : M B :=
  fun p => match m p with
           | (value a, p') => k a p'
           | (halt o, p') => (halt o, p')
           end.

Notation "x <- m ;; k" := (bind m (fun x => k))
  (at level 61, m at next level, right associativity).
Notation "m ;; k" := (bind m (fun _ => k))
  (at level 61, right associativity).

Definition stop {A} (o : outcome) : M A := fun p => (halt o, p).

Definition exit {A} (status : Z) : M A := stop (exited status).

Definition endl : string := String "010" EmptyString.

Definition cout (s : string) : M unit := fun p =>
  (value tt,
   mkProcess (posixly_correct p) (stack p) (stdin p) (network p) (sigint p)
             (stdout p ++ s)%string (stderr p) (socket p)).

Definition cerr (s : string) : M unit := fun p =>
  (value tt,
   mkProcess (posixly_correct p) (stack p) (stdin p) (network p) (sigint p)
             (stdout p) (stderr p ++ s)%string (socket p)).

(** [printf] with a format free of conversions: the same stream as [cout]. *)
Definition printf (format : string) : M unit := cout format.

Definition on_wire (w : wire) : M unit := fun p =>
  (value tt,
   mkProcess (posixly_correct p) (stack p) (stdin p) (network p) (sigint p)
             (stdout p) (stderr p) (socket p ++ [w])).

(** [interrupt_handler], lines 149-153. *)
Definition interrupt_handler (signum : Z) : M unit :=
  cout ("Caught signal " ++ Libc.decimal signum ++ ". Ending the program."
        ++ endl)%string ;;
  exit Libc.EXIT_SUCCESS.

(** [main] installs [interrupt_handler] for SIGINT before anything else. The
    process spends its life in the calls that wait for the outside world;
    the signal is delivered during one of them. *)
Definition blocking_call : M unit := fun p =>
  match sigint p with
  | Some O => interrupt_handler Libc.SIGINT p
  | Some (S k) =>
      (value tt,
       mkProcess (posixly_correct p) (stack p) (stdin p) (network p) (Some k)
                 (stdout p) (stderr p) (socket p))
  | None => (value tt, p)
  end.

(** [fgets(s, n, stdin)]. *)
Definition fgets_stdin (s : list byte) (n : Z) : M (list byte) :=
  blocking_call ;;
  fun p =>
    let (s', left) := Libc.fgets s n (stdin p) in
    (value s',
     mkProcess (posixly_correct p) (stack p) left (network p) (sigint p)
               (stdout p) (stderr p) (socket p)).

(** The largest payload of one UDP datagram over IPv4: 65535 bytes less the
    20 of the IP header and the 8 of the UDP header. An array of this size
    takes under 64 KiB of automatic storage. *)
Definition UDP_PAYLOAD_MAX : Z := 65507.

(** [char buffer[n];] The array is given whatever [n] is. A process that is
    killed when it touches an array too large for its stack is not
    modelled: what is stated about the turns the meter takes is stated for
    arrays of at most [UDP_PAYLOAD_MAX] bytes. *)
Definition automatic (n : Z) : M (list byte) := fun p =>
  (value (Libc.uninitialised (Z.to_nat n) (stack p)), p).

(** ** The socket *)

Module SocketEntity.

(** Modelled from the spec: [ipk-socket.h] with the class [SocketEntity] is
    not among the sources. The Channel of the spec opens a receive-capable
    endpoint on a local port ([bind]) or an endpoint with a fixed remote
    peer ([connect]). *)
Definition setup_server (port : Z) : M unit := on_wire (bound port).

Definition setup_connection (host : string) (port : Z) : M unit :=
  on_wire (connected host port).

(** Modelled from the spec: [receive] yields the bytes of one datagram, or
    fails. The source hands over an array and its size: the datagram's
    bytes are stored at the start of the array, at most [size] of them,
    and the bytes of the array behind them stay as they were. *)
Definition arrive (buffer : list byte) (size : Z) (datagram : list byte)
  : list byte :=
  Libc.store buffer (firstn (Z.to_nat size) datagram).

Definition recv_message (buffer : list byte) (size : Z) : M (list byte) :=
  blocking_call ;;
  fun p =>
    match network p with
    | [] => (halt blocked, p)
    | r :: later =>
        (value match r with
               | Some datagram => arrive buffer size datagram
               | None => buffer
               end,
         mkProcess (posixly_correct p) (stack p) (stdin p) later (sigint p)
                   (stdout p) (stderr p) (socket p ++ [received r]))
    end.

(** Modelled from the spec: [send] transmits exactly as many octets as it
    is given, here the first [size] bytes of the array. *)
Definition octets (buffer : list byte) (size : Z) : list byte :=
  firstn (Z.to_nat size) buffer.

Definition send_message (buffer : list byte) (size : Z) : M unit :=
  on_wire (sent (octets buffer size)).

End SocketEntity.

(** ** [argument_parser], lines 163-284 *)

(** The locals of the meter branch. Each flag ([h_flag], [p_flag], [s_flag],
    [t_flag]) is set by the same [case] that assigns its value, and the
    values are read only when all four flags are set: a flag and its value
    are one optional value here, [None] while the flag is [false]. *)
Record meter_locals : Type := mkMeterLocals {
  host_name : option string;
  port : option Z;
  probe_size : option Z;
  measurment_time : option Libc.float
}.

Definition char (c : ascii) : string := String c EmptyString.

(** The [case '?'] of the meter branch, lines 208-215. *)
Definition meter_getopt_error (optopt : ascii) : M unit :=
  (if (Ascii.eqb optopt "h" || Ascii.eqb optopt "p"
       || Ascii.eqb optopt "s" || Ascii.eqb optopt "t")%bool
   then cerr ("Option -" ++ char optopt ++ " requires an argument." ++ endl)%string
   else if Libc.isprint optopt
   then cerr ("Uknown option '-" ++ char optopt ++ "'" ++ endl)%string
   else cerr ("Unknown option character. " ++ endl)%string).

(** The [while] loop of the meter branch, lines 188-221, over the values
    [getopt] returns ([c] is a [char] that holds -1, as where [char] is
    signed). [port] is an [unsigned short]. *)
Fixpoint meter_getopt_loop (rets : list Getopt.ret) (l : meter_locals)
  : M meter_locals :=
  match rets with
  | [] => ret l
  | Getopt.opt c optarg :: rets' =>
      if Ascii.eqb c "h" then
        meter_getopt_loop rets'
          (mkMeterLocals (Some optarg) (port l) (probe_size l) (measurment_time l))
      else if Ascii.eqb c "p" then
        meter_getopt_loop rets'
          (mkMeterLocals (host_name l)
             (Some (Libc.to_unsigned_short
                      (Libc.to_unsigned_int (Libc.atoi optarg))))
             (probe_size l) (measurment_time l))
      else if Ascii.eqb c "s" then
        meter_getopt_loop rets'
          (mkMeterLocals (host_name l) (port l)
             (Some (Libc.to_size_t (Libc.atoi optarg))) (measurment_time l))
      else if Ascii.eqb c "t" then
        meter_getopt_loop rets'
          (mkMeterLocals (host_name l) (port l) (probe_size l)
             (Some (Libc.atof optarg)))
      else
        cerr ("uknown getopt() error" ++ endl)%string ;; exit 1
  | Getopt.unknown optopt :: _ =>
      meter_getopt_error optopt ;; exit 1
  end.

(** The [case '?'] of the reflect branch, lines 252-259. *)
Definition reflect_getopt_error (optopt : ascii) : M unit :=
  (if Ascii.eqb optopt "p"
   then cerr ("Option -p requires an argument." ++ endl)%string
   else if Libc.isprint optopt
   then cerr ("Uknown option '-" ++ char optopt ++ "'" ++ endl)%string
   else cerr ("Unknown option character. " ++ endl)%string).

(** The [while] loop of the reflect branch, lines 244-265; the local
    [port] is an [unsigned int], set together with [p_flag]. *)
Fixpoint reflect_getopt_loop (rets : list Getopt.ret) (port : option Z)
  : M (option Z) :=
  match rets with
  | [] => ret port
  | Getopt.opt c optarg :: rets' =>
      if Ascii.eqb c "p" then
        reflect_getopt_loop rets'
          (Some (Libc.to_unsigned_int (Libc.atoi optarg)))
      else
        cerr ("uknown getopt() error" ++ endl)%string ;; exit 1
  | Getopt.unknown optopt :: _ =>
      reflect_getopt_error optopt ;; exit 1
  end.

(** The values [getopt(argc, argv, optstring)] returns from [optind] on. *)
Definition getopt (argv : list string) (optind : nat) (optstring : string)
  : M (list Getopt.ret) := fun p =>
  (value (Getopt.scan (posixly_correct p) optstring (skipn optind argv)), p).

(** [nullptr] is [None]. [argc] is the number of elements of [argv];
    [optind] is 1 when the program starts. *)
Definition argument_parser (argv : list string) : M (option MTripConfiguration) :=
  let argc := Z.of_nat (length argv) in
  let optind := 1%nat in
  if argc <? 4 then
    cerr ("Wrong number of arguments." ++ endl)%string ;;
    ret None
  else if String.eqb (nth optind argv EmptyString) "meter" then
    let optind := S optind in
    rets <- getopt argv optind "h:p:s:t:" ;;
    l <- meter_getopt_loop rets (mkMeterLocals None None None None) ;;
    match host_name l, port l, probe_size l, measurment_time l with
    | Some host_name, Some port, Some probe_size, Some measurment_time =>
        ret (Some (Meter host_name port probe_size measurment_time))
    | _, _, _, _ =>
        cerr ("Not all argument options passed in." ++ endl)%string ;;
        ret None
    end
  else if String.eqb (nth optind argv EmptyString) "reflect" then
    let optind := S optind in
    rets <- getopt argv optind "p:" ;;
    port <- reflect_getopt_loop rets None ;;
    match port with
    | Some port => ret (Some (Reflector port))
    | None =>
        cerr ("Required option not passed in." ++ endl)%string ;;
        ret None
    end
  else
    cerr ("Undefined mode inside an argument passed to the application."
          ++ endl)%string ;;
    ret None.

(** ** The two modes and [main] *)

Section Modes.

(** [ipk-mtrip.h] is not among the sources: the two colour macros it
    defines are parameters. *)
Variables CL_GREEN RESET : string.

(** The body of the loop of [Reflector::init], lines 100-101;
    [sizeof(buffer)] is 512. *)
Definition Reflector_body (buffer : list byte) : M (list byte) :=
  buffer <- SocketEntity.recv_message buffer 512 ;;
  SocketEntity.send_message buffer 512 ;;
  ret buffer.

(** [while (true)], lines 98-102. *)
Fixpoint Reflector_loop (fuel : nat) (buffer : list byte) : M unit :=
  match fuel with
  | O => stop out_of_fuel
  | S fuel' =>
      buffer <- Reflector_body buffer ;;
      Reflector_loop fuel' buffer
  end.

(** [Reflector::init], lines 86-103. Constructing the [SocketEntity] leaves
    no trace of its own; the first call on it is [setup_server]. *)
Definition Reflector_init (m_port : Z) (fuel : nat) : M unit :=
  cout ("[REFLECTOR]: " ++ CL_GREEN ++ "started" ++ RESET ++ endl)%string ;;
  SocketEntity.setup_server m_port ;;
  buffer <- automatic 512 ;;
  Reflector_loop fuel buffer.

(** The body of the loop of [Meter::init], lines 127-137. [buffer] is a
    variable-length array of [m_probe_size] bytes, which is also its
    [sizeof]; [fgets] takes the size as an [int]. Printing [buffer] stops
    at its first NUL. An array without one is read past its end, which is
    not modelled: what is stated about the output of the meter is stated
    for receives that leave a NUL in the array. *)
Definition Meter_body (m_probe_size : Z) (buffer : list byte)
  : M (list byte) :=
  let buffer := Libc.bzero buffer m_probe_size in
  printf "Please enter msg: " ;;
  buffer <- fgets_stdin buffer (Libc.to_int m_probe_size) ;;
  SocketEntity.send_message buffer m_probe_size ;;
  let buffer := Libc.bzero buffer m_probe_size in
  buffer <- SocketEntity.recv_message buffer m_probe_size ;;
  cout ("Feedback: " ++ string_of_list_byte (Libc.c_str buffer)
        ++ endl)%string ;;
  ret buffer.

(** [while (true)], lines 125-138. *)
Fixpoint Meter_loop (m_probe_size : Z) (fuel : nat) (buffer : list byte)
  : M unit :=
  match fuel with
  | O => stop out_of_fuel
  | S fuel' =>
      buffer <- Meter_body m_probe_size buffer ;;
      Meter_loop m_probe_size fuel' buffer
  end.

(** [Meter::init], lines 112-141. [m_measurment_time] is named only after
    the loop, in a cast to [void]. *)
Definition Meter_init (m_host_name : string) (m_port m_probe_size : Z)
           (m_measurment_time : Libc.float) (fuel : nat) : M unit :=
  cout ("[METER]: " ++ CL_GREEN ++ "started" ++ RESET ++ endl)%string ;;
  SocketEntity.setup_connection m_host_name m_port ;;
  buffer <- automatic m_probe_size ;;
  Meter_loop m_probe_size fuel buffer.

(** The virtual [init()]. *)
Definition init (mtrip : MTripConfiguration) (fuel : nat) : M unit :=
  match mtrip with
  | Meter m_host_name m_port m_probe_size m_measurment_time =>
      Meter_init m_host_name m_port m_probe_size m_measurment_time fuel
  | Reflector m_port => Reflector_init m_port fuel
  end.

(** [main], lines 62-77. The handler installed by [signal] is the one
    [blocking_call] runs. *)
Definition main (argv : list string) (fuel : nat) : M Z :=
  mtrip <- argument_parser argv ;;
  match mtrip with
  | None => ret Libc.EXIT_FAILURE
  | Some mtrip =>
      init mtrip fuel ;;
      ret Libc.EXIT_SUCCESS
  end.

(** The process from start to end: how it ended, within [fuel] iterations
    of its loop, and the state it left. *)
Definition run (argv : list string) (fuel : nat) (p : process)
  : outcome * process :=
  match main argv fuel p with
  | (value status, p') => (exited status, p')
  | (halt o, p') => (o, p')
  end.

End Modes.

(** A process about to start. *)
Definition start (posixly_correct : bool) (stack stdin : list byte)
           (network : list (option (list byte))) (sigint : option nat)
  : process :=
  mkProcess posixly_correct stack stdin network sigint EmptyString EmptyString [].


Definition bytes (s : string) : list byte := list_byte_of_string s.

(** ** Auxiliary notions for the statements *)

Definition prompt : string := "Please enter msg: ".

Definition caught : string :=
  ("Caught signal " ++ Libc.decimal Libc.SIGINT ++ ". Ending the program."
   ++ endl)%string.

Definition zeros (n : Z) : list byte := repeat x00 (Z.to_nat n).

(** The probe the meter sends after reading [line]. *)
Definition probe (n : Z) (line : list byte) : list byte :=
  line ++ repeat x00 (Z.to_nat n - length line).

(** What [fgets] takes from the stream for an array of [n] bytes, and what
    it leaves. *)
Definition taken (n : Z) (stream : list byte) : list byte * list byte :=
  if Libc.to_int n <=? 1 then ([], stream)
  else Libc.read_line (Z.to_nat (Libc.to_int n - 1)) stream.

(** The meter's array after the receive that met [r]. *)
Definition reply (n : Z) (r : option (list byte)) : list byte :=
  match r with
  | Some datagram => SocketEntity.arrive (zeros n) n datagram
  | None => zeros n
  end.

Definition feedback (n : Z) (r : option (list byte)) : string :=
  ("Feedback: " ++ string_of_list_byte (Libc.c_str (reply n r)) ++ endl)%string.

(** The receive that met [r] leaves the meter's array terminated: there is
    a zero byte in it, and [cout << buffer] stays inside the array. *)
Definition terminated (n : Z) (r : option (list byte)) : Prop :=
  In x00 (reply n r).

(** The reflector's array after the receive that met [r]. *)
Definition landed (buffer : list byte) (r : option (list byte)) : list byte :=
  match r with
  | Some datagram => SocketEntity.arrive buffer 512 datagram
  | None => buffer
  end.

(** The number of blocking calls still to complete before SIGINT, after
    [n] more of them have completed. *)
Definition later_by (n : nat) (sigint : option nat) : option nat :=
  option_map (fun k => (k - n)%nat) sigint.

(** What the reflector's loop puts on the wire when it starts with [buffer]
    and its receives meet [rs]. *)
Fixpoint echoes (buffer : list byte) (rs : list (option (list byte)))
  : list wire :=
  match rs with
  | [] => []
  | r :: rs' =>
      received r :: sent (SocketEntity.octets (landed buffer r) 512)
      :: echoes (landed buffer r) rs'
  end.

(** What the meter's loop puts on the wire while [fgets] reads from [stream]
    and the receives meet [rs]. *)
Fixpoint probes (n : Z) (stream : list byte) (rs : list (option (list byte)))
  : list wire :=
  match rs with
  | [] => []
  | r :: rs' =>
      sent (probe n (fst (taken n stream))) :: received r
      :: probes n (snd (taken n stream)) rs'
  end.

(** The stream after [k] calls of [fgets]. *)
Fixpoint lines_left (n : Z) (k : nat) (stream : list byte) : list byte :=
  match k with
  | O => stream
  | S k' => lines_left n k' (snd (taken n stream))
  end.

(** What the meter's loop prints while its receives meet [rs]. *)
Fixpoint chat (n : Z) (rs : list (option (list byte))) : string :=
  match rs with
  | [] => EmptyString
  | r :: rs' => (prompt ++ feedback n r ++ chat n rs')%string
  end.

(** The first [k] lines [fgets] takes from [stream]. *)
Fixpoint typed_lines (n : Z) (k : nat) (stream : list byte) : list (list byte) :=
  match k with
  | O => []
  | S k' => fst (taken n stream) :: typed_lines n k' (snd (taken n stream))
  end.

(** The payloads of the sends among [ws]. *)
Definition sends (ws : list wire) : list (list byte) :=
  flat_map (fun w => match w with sent o => [o] | _ => [] end) ws.

Definition octets_sent (p : process) : list (list byte) := sends (socket p).

(** The lines [argument_parser] writes to standard error. *)
Inductive diagnostic : string -> Prop :=
| wrong_number : diagnostic "Wrong number of arguments."
| not_all_passed : diagnostic "Not all argument options passed in."
| required_not_passed : diagnostic "Required option not passed in."
| undefined_mode :
    diagnostic "Undefined mode inside an argument passed to the application."
| requires_argument c :
    diagnostic ("Option -" ++ char c ++ " requires an argument.")%string
| unknown_option c : diagnostic ("Uknown option '-" ++ char c ++ "'")%string
| unknown_character : diagnostic "Unknown option character. "
| getopt_error : diagnostic "uknown getopt() error".

(** The process after one line on standard error. *)
Definition complained (msg : string) (p : process) : process :=
  mkProcess (posixly_correct p) (stack p) (stdin p) (network p) (sigint p)
            (stdout p) (stderr p ++ msg ++ endl)%string (socket p).

(** A local of the parser after the loop over [rets]: as it was before, or
    converted from the argument of an option [c] among [rets]. *)
Definition assigned {A} (c : ascii) (conv : string -> A)
           (rets : list Getopt.ret) (before after : option A) : Prop :=
  after = before
  \/ exists optarg, In (Getopt.opt c optarg) rets /\ after = Some (conv optarg).

Definition port_of (optarg : string) : Z :=
  Libc.to_unsigned_short (Libc.to_unsigned_int (Libc.atoi optarg)).

Definition size_of (optarg : string) : Z := Libc.to_size_t (Libc.atoi optarg).

Definition meter_assigned (rets : list Getopt.ret) (l l' : meter_locals) : Prop :=
  assigned "h" (fun optarg => optarg) rets (host_name l) (host_name l')
  /\ assigned "p" port_of rets (port l) (port l')
  /\ assigned "s" size_of rets (probe_size l) (probe_size l')
  /\ assigned "t" Libc.atof rets (measurment_time l) (measurment_time l').

(** [getopt] returned nothing but the four options of the meter. *)
Definition meter_options_only (rets : list Getopt.ret) : Prop :=
  Forall (fun r => exists c optarg,
              r = Getopt.opt c optarg /\ In c ["h"; "p"; "s"; "t"]%char) rets.

(** The members of a configuration fit the types of the locals they were
    built from. *)
Definition representable (mtrip : MTripConfiguration) : Prop :=
  match mtrip with
  | Meter _ m_port m_probe_size _ =>
      0 <= m_port < 2 ^ 16 /\ 0 <= m_probe_size < 2 ^ 64
  | Reflector m_port => 0 <= m_port < 2 ^ 32
  end.

(** ** Sample invocations and worlds *)

(** The usual escape sequences, for the runs evaluated below. *)
Definition green : string := String "027" "[32m".
Definition reset : string := String "027" "[0m".

Definition reflect_9000 : list string := ["ipk-mtrip"; "reflect"; "-p"; "9000"].

(** A datagram of 64 bytes that starts with the number 42. *)
Definition sequence_42 : list byte := x2a :: repeat x00 63.

(** A datagram of 600 bytes. *)
Definition jumbo : list byte := repeat x41 600.

(** A stack full of old bytes. *)
Definition stale : list byte := repeat x55 512.

Definition meter_argv : list string :=
  ["ipk-mtrip"; "meter"; "-h"; "localhost"; "-p"; "9000"; "-s"; "8"; "-t"; "1"].

(** What an operator may type, and what a reflector may answer. *)
Definition typed_abc : list byte := bytes ("abc" ++ endl)%string.
Definition three_answers : list (option (list byte)) :=
  [Some (bytes "abc"); Some (bytes "def"); Some (bytes "ghi")].

Definition attached_argv : list string := ["ipk-mtrip"; "reflect"; "-p9000"].

Definition without_t : list string :=
  ["ipk-mtrip"; "meter"; "-h"; "localhost"; "-p"; "9000"; "-s"; "64"].

Definition without_s : list string :=
  ["ipk-mtrip"; "meter"; "-h"; "localhost"; "-p"; "9000"; "-t"; "2"].

Definition zero_argv : list string :=
  ["ipk-mtrip"; "meter"; "-h"; "localhost"; "-p"; "9000"; "-s"; "0"; "-t"; "0"].

Definition nonsense_argv : list string :=
  ["ipk-mtrip"; "meter"; "-h"; "localhost"; "-p"; "abc"; "-s"; "xyz";
   "-t"; "soon"].

(** A process nobody types to, sends to or interrupts. *)
Definition idle : process := start false [] [] [] None.

(** ** Further notions for the statements *)

(** The option characters of one element of [argv], as [Getopt.scan] goes
    through them: [after] is what the scan returns from the next element on,
    [with_arg] the next element and what the scan returns behind it. *)
Fixpoint cluster (optstring : string) (after : list Getopt.ret)
         (with_arg : option (string * list Getopt.ret)) (chars : string)
  : list Getopt.ret :=
  match chars with
  | EmptyString => after
  | String c cs =>
      match Getopt.declared c optstring with
      | None => Getopt.unknown c :: cluster optstring after with_arg cs
      | Some false =>
          Getopt.opt c EmptyString :: cluster optstring after with_arg cs
      | Some true =>
          match cs with
          | String _ _ => Getopt.opt c cs :: after
          | EmptyString =>
              match with_arg with
              | None => [Getopt.unknown c]
              | Some (optarg, after') => Getopt.opt c optarg :: after'
              end
          end
      end
  end.

(** [getopt] returns option characters of [optstring] only. *)
Definition declared_only (optstring : string) (rets : list Getopt.ret) : Prop :=
  Forall (fun r => match r with
                   | Getopt.opt c _ => Getopt.declared c optstring <> None
                   | Getopt.unknown _ => True
                   end) rets.

(** No option [c] among [rets]. *)
Definition without (c : ascii) (rets : list Getopt.ret) : Prop :=
  forall optarg, ~ In (Getopt.opt c optarg) rets.

(** [getopt] returned nothing but the option of the reflector. *)
Definition reflect_options_only (rets : list Getopt.ret) : Prop :=
  Forall (fun r => exists optarg, r = Getopt.opt "p" optarg) rets.

Definition lacks_argument_argv : list string :=
  ["ipk-mtrip"; "meter"; "-h"; "localhost"; "-t"].

Definition twice_s_argv : list string :=
  ["ipk-mtrip"; "meter"; "-h"; "localhost"; "-p"; "9000"; "-s"; "64";
   "-s"; "128"; "-t"; "2"].

Definition shouted_argv : list string := ["ipk-mtrip"; "METER"; "-p"; "9000"].

(** * Properties *)

(** ** Arrays keep their size *)

Lemma length_store s bs : length (Libc.store s bs) = length s.
Proof.
  unfold Libc.store.
  rewrite length_firstn, length_app, length_skipn. lia.
Qed.


Lemma length_arrive buffer size datagram :
  length (SocketEntity.arrive buffer size datagram) = length buffer.
Proof. apply length_store. Qed.

Lemma length_uninitialised n garbage :
  length (Libc.uninitialised n garbage) = n.
Proof.
  unfold Libc.uninitialised.
  rewrite length_firstn, length_app, repeat_length. lia.
Qed.


(** Storing at least as many bytes as the array holds leaves exactly the
    first of them. *)
Lemma store_full s bs :
  (length s <= length bs)%nat -> Libc.store s bs = firstn (length s) bs.
Proof.
  intros H. unfold Libc.store.
  rewrite firstn_app.
  replace (length s - length bs)%nat with 0%nat by lia.
  rewrite firstn_O, app_nil_r. reflexivity.
Qed.

(** Storing fewer bytes than the array holds puts them in front of the rest
    of the array. *)
Lemma store_short s bs :
  (length bs <= length s)%nat -> Libc.store s bs = bs ++ skipn (length bs) s.
Proof.
  intros H. unfold Libc.store.
  apply firstn_all2. rewrite length_app, length_skipn. lia.
Qed.


(** ** Text *)

Lemma append_assoc (s t u : string) : ((s ++ t) ++ u = s ++ (t ++ u))%string.
Proof. induction s as [|c s IH]; cbn; [reflexivity|now rewrite IH]. Qed.

Lemma append_nil_r (s : string) : (s ++ EmptyString)%string = s.
Proof. induction s as [|c s IH]; cbn; [reflexivity|now rewrite IH]. Qed.

(** ** One turn of each loop, as an equation *)

Ltac fields :=
  cbn [sigint network socket posixly_correct stack stdin stdout stderr].

Lemma later_by_later a b sig : later_by a (later_by b sig) = later_by (b + a) sig.
Proof. destruct sig; cbn; [f_equal; lia|reflexivity]. Qed.

Lemma later_by_0 sig : later_by 0 sig = sig.
Proof. destruct sig; cbn; [f_equal; lia|reflexivity]. Qed.

Lemma Reflector_body_spec buffer p :
  Reflector_body buffer p =
  match sigint p with
  | Some O =>
      (halt (exited Libc.EXIT_SUCCESS),
       mkProcess (posixly_correct p) (stack p) (stdin p) (network p) (sigint p)
                 (stdout p ++ caught)%string (stderr p) (socket p))
  | sig =>
      match network p with
      | [] =>
          (halt blocked,
           mkProcess (posixly_correct p) (stack p) (stdin p) [] (later_by 1 sig)
                     (stdout p) (stderr p) (socket p))
      | r :: later =>
          (value (landed buffer r),
           mkProcess (posixly_correct p) (stack p) (stdin p) later
                     (later_by 1 sig) (stdout p) (stderr p)
                     (socket p ++ [received r;
                                   sent (SocketEntity.octets (landed buffer r) 512)]))
      end
  end.
Proof.
  destruct p as [pc st si nw sg so se sk].
  unfold Reflector_body, SocketEntity.recv_message, SocketEntity.send_message,
    on_wire, blocking_call, bind, ret, landed.
  fields.
  destruct sg as [[|k]|]; [reflexivity| |];
    destruct nw as [|r later]; cbn; rewrite ?Nat.sub_0_r, <- ?app_assoc;
    reflexivity.
Qed.

(** ** What [fgets] does to a zeroed array *)

Lemma skipn_repeat (x : byte) k n : skipn k (repeat x n) = repeat x (n - k).
Proof.
  revert n. induction k as [|k IH]; intros n.
  - now rewrite Nat.sub_0_r.
  - destruct n as [|n]; [reflexivity|]. cbn. apply IH.
Qed.

Lemma bzero_all s n : length s = Z.to_nat n -> Libc.bzero s n = zeros n.
Proof.
  intros H. unfold Libc.bzero, zeros.
  rewrite store_full by (rewrite repeat_length; lia).
  rewrite H. apply firstn_all2. rewrite repeat_length. lia.
Qed.

Lemma read_line_split k : forall stream,
  stream = fst (Libc.read_line k stream) ++ snd (Libc.read_line k stream)
  /\ (length (fst (Libc.read_line k stream)) <= k)%nat.
Proof.
  induction k as [|k IH]; intros [|b rest]; cbn; try (split; [reflexivity|lia]).
  destruct (Byte.eqb b x0a).
  - cbn. split; [reflexivity|lia].
  - specialize (IH rest). destruct (Libc.read_line k rest) as [line left].
    cbn in *. destruct IH as [-> Hl]. split; [reflexivity|lia].
Qed.

Lemma read_line_nothing k stream :
  fst (Libc.read_line k stream) = [] -> snd (Libc.read_line k stream) = stream.
Proof.
  intros H. destruct (read_line_split k stream) as [Hs _].
  rewrite H in Hs. cbn in Hs. now symmetry.
Qed.

Lemma to_int_le n : 0 <= n -> Libc.to_int n <= n.
Proof.
  intros H. unfold Libc.to_int.
  pose proof (Z.mod_le (n + 2 ^ 31) (2 ^ 32)). lia.
Qed.


Lemma taken_length n stream :
  0 <= n -> (length (fst (taken n stream)) <= Z.to_nat n - 1)%nat.
Proof.
  intros H. unfold taken. pose proof (to_int_le n H).
  destruct (Libc.to_int n <=? 1) eqn:E; [cbn; lia|].
  apply Z.leb_gt in E.
  pose proof (proj2 (read_line_split (Z.to_nat (Libc.to_int n - 1)) stream)).
  lia.
Qed.

Lemma length_probe n line :
  (length line <= Z.to_nat n)%nat -> length (probe n line) = Z.to_nat n.
Proof. intros H. unfold probe. rewrite length_app, repeat_length. lia. Qed.

Lemma fgets_zeros n stream :
  0 <= n ->
  Libc.fgets (zeros n) (Libc.to_int n) stream =
  (probe n (fst (taken n stream)), snd (taken n stream)).
Proof.
  intros H. pose proof (to_int_le n H) as Hle.
  unfold Libc.fgets, taken, probe, zeros.
  destruct (Libc.to_int n <=? 0) eqn:E0.
  - apply Z.leb_le in E0.
    replace (Libc.to_int n <=? 1) with true by (symmetry; apply Z.leb_le; lia).
    cbn. now rewrite Nat.sub_0_r.
  - apply Z.leb_gt in E0.
    destruct (Libc.to_int n =? 1) eqn:E1.
    + apply Z.eqb_eq in E1.
      replace (Libc.to_int n <=? 1) with true by (symmetry; apply Z.leb_le; lia).
      cbn [fst snd app length]. rewrite Nat.sub_0_r. f_equal.
      rewrite store_short by (rewrite repeat_length; cbn; lia).
      cbn [length]. rewrite skipn_repeat.
      replace (Z.to_nat n) with (S (Z.to_nat n - 1)) at 2 by lia.
      reflexivity.
    + apply Z.eqb_neq in E1.
      replace (Libc.to_int n <=? 1) with false by (symmetry; apply Z.leb_gt; lia).
      pose proof (read_line_split (Z.to_nat (Libc.to_int n - 1)) stream) as [_ Hl].
      pose proof (read_line_nothing (Z.to_nat (Libc.to_int n - 1)) stream) as Hn.
      destruct (Libc.read_line (Z.to_nat (Libc.to_int n - 1)) stream)
        as [[|b line] left]; cbn [fst snd] in *.
      * rewrite Hn by reflexivity. cbn. now rewrite Nat.sub_0_r.
      * f_equal.
        rewrite store_short by (rewrite length_app, repeat_length; cbn in *; lia).
        rewrite <- app_assoc. f_equal.
        rewrite length_app, skipn_repeat. cbn [length app].
        cbn [length] in Hl.
        replace (Z.to_nat n - S (length line))%nat
          with (S (Z.to_nat n - (S (length line) + 1))) by lia.
        reflexivity.
Qed.

Lemma Meter_body_spec n buffer p :
  0 <= n -> length buffer = Z.to_nat n ->
  Meter_body n buffer p =
  let line := fst (taken n (stdin p)) in
  let left := snd (taken n (stdin p)) in
  match sigint p with
  | Some O =>
      (halt (exited Libc.EXIT_SUCCESS),
       mkProcess (posixly_correct p) (stack p) (stdin p) (network p) (sigint p)
                 (stdout p ++ prompt ++ caught)%string (stderr p) (socket p))
  | Some (S O) =>
      (halt (exited Libc.EXIT_SUCCESS),
       mkProcess (posixly_correct p) (stack p) left (network p) (Some O)
                 (stdout p ++ prompt ++ caught)%string (stderr p)
                 (socket p ++ [sent (probe n line)]))
  | sig =>
      match network p with
      | [] =>
          (halt blocked,
           mkProcess (posixly_correct p) (stack p) left [] (later_by 2 sig)
                     (stdout p ++ prompt)%string (stderr p)
                     (socket p ++ [sent (probe n line)]))
      | r :: later =>
          (value (reply n r),
           mkProcess (posixly_correct p) (stack p) left later (later_by 2 sig)
                     (stdout p ++ prompt ++ feedback n r)%string (stderr p)
                     (socket p ++ [sent (probe n line); received r]))
      end
  end.
Proof.
  intros Hn Hlen.
  pose proof (taken_length n (stdin p) Hn) as Hline.
  destruct p as [pc st si nw sg so se sk].
  fields. cbn [sigint stdin] in Hline.
  unfold Meter_body.
  rewrite (bzero_all buffer n Hlen).
  unfold printf, cout, fgets_stdin, blocking_call, bind at 1 2 3.
  fields.
  destruct sg as [[|[|k]]|].
  - cbn. rewrite append_assoc. reflexivity.
  - fields. rewrite (fgets_zeros n si Hn).
    unfold bind at 1, SocketEntity.send_message, on_wire.
    rewrite (bzero_all (probe n _) n) by (apply length_probe; lia).
    unfold SocketEntity.octets.
    rewrite firstn_all2 by (rewrite length_probe; lia).
    cbn. rewrite append_assoc. reflexivity.
  - fields. rewrite (fgets_zeros n si Hn).
    unfold bind at 1, SocketEntity.send_message, on_wire.
    rewrite (bzero_all (probe n _) n) by (apply length_probe; lia).
    unfold SocketEntity.octets.
    rewrite firstn_all2 by (rewrite length_probe; lia).
    destruct nw as [|r later]; cbn; rewrite ?Nat.sub_0_r, <- ?app_assoc,
      ?append_assoc; reflexivity.
  - fields. rewrite (fgets_zeros n si Hn).
    unfold bind at 1, SocketEntity.send_message, on_wire.
    rewrite (bzero_all (probe n _) n) by (apply length_probe; lia).
    unfold SocketEntity.octets.
    rewrite firstn_all2 by (rewrite length_probe; lia).
    destruct nw as [|r later]; cbn; rewrite ?Nat.sub_0_r, <- ?app_assoc,
      ?append_assoc; reflexivity.
Qed.

(** ** The loops, from start to end *)

(** The reflector's loop never returns. It ends in one of three ways: the
    budget of iterations is used up, a receive never completes, or SIGINT
    arrives during a receive. *)
Lemma Reflector_loop_spec fuel : forall buffer p,
  exists k o tail,
    Reflector_loop fuel buffer p =
      (halt o,
       mkProcess (posixly_correct p) (stack p) (stdin p) (skipn k (network p))
         (later_by (k + match o with exited _ => 0 | blocked => 1 | _ => 0 end)
            (sigint p))
         (stdout p ++ tail)%string (stderr p)
         (socket p ++ echoes buffer (firstn k (network p))))
    /\ (k <= fuel)%nat /\ (k <= length (network p))%nat
    /\ ((o = out_of_fuel /\ k = fuel /\ tail = EmptyString
         /\ forall j, sigint p = Some j -> (k <= j)%nat)
        \/ (o = blocked /\ k = length (network p) /\ (k < fuel)%nat /\ tail = EmptyString
            /\ forall j, sigint p = Some j -> (k < j)%nat)
        \/ (o = exited Libc.EXIT_SUCCESS /\ sigint p = Some k /\ (k < fuel)%nat
            /\ tail = caught)).
Proof.
  induction fuel as [|fuel IH]; intros buffer p.
  - exists 0%nat, out_of_fuel, EmptyString. destruct p as [pc st si nw sg so se sk].
    cbn. rewrite append_nil_r, app_nil_r.
    rewrite later_by_0.
    repeat split; try lia. left. repeat split; intros; lia.
  - cbn [Reflector_loop]. unfold bind at 1. rewrite Reflector_body_spec.
    destruct (sigint p) as [[|j]|] eqn:Hs.
    + exists 0%nat, (exited Libc.EXIT_SUCCESS), caught.
      cbn. rewrite app_nil_r. repeat split; try lia.
      right. right. repeat split; lia.
    + destruct (network p) as [|r later] eqn:Hn.
      * exists 0%nat, blocked, EmptyString. cbn. rewrite append_nil_r, app_nil_r.
        repeat split; try lia. right. left.
        repeat split; try lia. intros ? [= <-]. lia.
      * cbv beta iota zeta. match goal with
        | |- context [Reflector_loop fuel ?b ?q] =>
            destruct (IH b q) as (k & o & tail & Heq & Hk & Hl & Hend)
        end.
        rewrite Heq. revert Hl Hend. fields. intros Hl Hend.
        exists (S k), o, tail. cbn [skipn firstn echoes plus].
        rewrite <- app_assoc. cbn [app].
        split; [rewrite later_by_later; reflexivity|].
        cbn [length]. repeat split; try lia.
        destruct Hend as [(-> & -> & -> & Hj)|[(-> & -> & Hf & -> & Hj)
                                               |(-> & Hj & Hf & ->)]].
        -- left. repeat split. intros ? [= <-].
           specialize (Hj j). cbn in Hj. rewrite Nat.sub_0_r in Hj.
           specialize (Hj eq_refl). lia.
        -- right. left. repeat split; try lia. intros ? [= <-].
           specialize (Hj j). cbn in Hj. rewrite Nat.sub_0_r in Hj.
           specialize (Hj eq_refl). lia.
        -- right. right. cbn in Hj. rewrite Nat.sub_0_r in Hj.
           injection Hj as ->. repeat split; lia.
    + destruct (network p) as [|r later] eqn:Hn.
      * exists 0%nat, blocked, EmptyString. cbn. rewrite append_nil_r, app_nil_r.
        repeat split; try lia. right. left.
        repeat split; try lia. intros ? [=].
      * cbv beta iota zeta. match goal with
        | |- context [Reflector_loop fuel ?b ?q] =>
            destruct (IH b q) as (k & o & tail & Heq & Hk & Hl & Hend)
        end.
        rewrite Heq. revert Hl Hend. fields. intros Hl Hend.
        exists (S k), o, tail. cbn [skipn firstn echoes plus].
        rewrite <- app_assoc. cbn [app].
        split; [rewrite later_by_later; reflexivity|].
        cbn [length]. repeat split; try lia.
        destruct Hend as [(-> & -> & -> & Hj)|[(-> & -> & Hf & -> & Hj)
                                               |(-> & Hj & Hf & ->)]].
        -- left. repeat split. intros ? [=].
        -- right. left. repeat split; try lia. intros ? [=].
        -- discriminate Hj.
Qed.

Lemma length_reply n r : length (reply n r) = Z.to_nat n.
Proof.
  destruct r as [datagram|]; cbn; [rewrite length_arrive|];
    apply repeat_length.
Qed.

(** The meter's loop never returns either. It ends when the budget of
    iterations is used up, when a receive never completes, or when SIGINT
    arrives, during [fgets] or during the receive. *)
Lemma Meter_loop_spec n fuel : 0 <= n -> forall buffer p,
  length buffer = Z.to_nat n ->
  exists k o tw tail,
    fst (Meter_loop n fuel buffer p) = halt o
    /\ socket (snd (Meter_loop n fuel buffer p)) =
       socket p ++ probes n (stdin p) (firstn k (network p)) ++ tw
    /\ stdout (snd (Meter_loop n fuel buffer p)) =
       (stdout p ++ chat n (firstn k (network p)) ++ tail)%string
    /\ stderr (snd (Meter_loop n fuel buffer p)) = stderr p
    /\ (k <= fuel)%nat /\ (k <= length (network p))%nat
    /\ ((o = out_of_fuel /\ k = fuel /\ tw = [] /\ tail = EmptyString
         /\ forall j, sigint p = Some j -> (2 * k <= j)%nat)
        \/ (o = blocked /\ k = length (network p) /\ (k < fuel)%nat
            /\ tw = [sent (probe n (fst (taken n (lines_left n k (stdin p)))))]
            /\ tail = prompt
            /\ forall j, sigint p = Some j -> (2 * k + 2 <= j)%nat)
        \/ (o = exited Libc.EXIT_SUCCESS /\ sigint p = Some (2 * k)%nat
            /\ (k < fuel)%nat /\ tw = [] /\ tail = (prompt ++ caught)%string)
        \/ (o = exited Libc.EXIT_SUCCESS /\ sigint p = Some (2 * k + 1)%nat
            /\ (k < fuel)%nat
            /\ tw = [sent (probe n (fst (taken n (lines_left n k (stdin p)))))]
            /\ tail = (prompt ++ caught)%string)).
Proof.
  intros Hn. induction fuel as [|fuel IH]; intros buffer p Hlen.
  - exists 0%nat, out_of_fuel, [], EmptyString. cbn.
    rewrite append_nil_r, app_nil_r.
    repeat split; try lia. left. repeat split; intros; lia.
  - cbn [Meter_loop]. unfold bind at 1 2 3 4.
    rewrite (Meter_body_spec n buffer p Hn Hlen). cbv zeta.
    destruct (sigint p) as [[|[|j]]|] eqn:Hs.
    + exists 0%nat, (exited Libc.EXIT_SUCCESS), [], (prompt ++ caught)%string.
      cbn [fst snd firstn probes chat app]. fields. rewrite app_nil_r.
      repeat split; try lia. right. right. left. repeat split; lia.
    + exists 0%nat, (exited Libc.EXIT_SUCCESS),
        [sent (probe n (fst (taken n (stdin p))))], (prompt ++ caught)%string.
      cbn [fst snd firstn probes chat app]. fields.
      repeat split; try lia. right. right. right. repeat split; lia.
    + destruct (network p) as [|r later] eqn:Hnw.
      * exists 0%nat, blocked, [sent (probe n (fst (taken n (stdin p))))], prompt.
        cbn [fst snd firstn probes chat app]. fields.
        repeat split; try lia. right. left. repeat split; try lia.
        intros ? [= <-]. lia.
      * cbv beta iota.
        match goal with
        | |- context [Meter_loop n fuel ?b ?q] =>
            destruct (IH b q (length_reply n r))
              as (k & o & tw & tail & Ho & Hw & Hout & Herr & Hk & Hl & Hend)
        end.
        revert Hw Hout Herr Hl Hend. fields. intros Hw Hout Herr Hl Hend.
        exists (S k), o, tw, tail. rewrite Ho, Hw, Hout, Herr.
        cbn [firstn probes chat lines_left length].
        rewrite <- !app_assoc, !append_assoc. cbn [app].
        repeat split; try lia.
        destruct Hend as [(-> & -> & -> & -> & Hj)
                         |[(-> & -> & Hf & -> & -> & Hj)
                          |[(-> & Hj & Hf & -> & ->)|(-> & Hj & Hf & -> & ->)]]].
        -- left. repeat split. intros ? [= <-].
           specialize (Hj j). cbn in Hj. rewrite Nat.sub_0_r in Hj.
           specialize (Hj eq_refl). lia.
        -- right. left. repeat split; try lia. intros ? [= <-].
           specialize (Hj j). cbn in Hj. rewrite Nat.sub_0_r in Hj.
           specialize (Hj eq_refl). lia.
        -- right. right. left. cbn in Hj. rewrite Nat.sub_0_r in Hj.
           injection Hj as Hj. repeat split; try lia. f_equal. lia.
        -- right. right. right. cbn in Hj. rewrite Nat.sub_0_r in Hj.
           injection Hj as Hj. repeat split; try lia. f_equal. lia.
    + destruct (network p) as [|r later] eqn:Hnw.
      * exists 0%nat, blocked, [sent (probe n (fst (taken n (stdin p))))], prompt.
        cbn [fst snd firstn probes chat app]. fields.
        repeat split; try lia. right. left. repeat split; try lia.
        intros ? [=].
      * cbv beta iota.
        match goal with
        | |- context [Meter_loop n fuel ?b ?q] =>
            destruct (IH b q (length_reply n r))
              as (k & o & tw & tail & Ho & Hw & Hout & Herr & Hk & Hl & Hend)
        end.
        revert Hw Hout Herr Hl Hend. fields. intros Hw Hout Herr Hl Hend.
        exists (S k), o, tw, tail. rewrite Ho, Hw, Hout, Herr.
        cbn [firstn probes chat lines_left length].
        rewrite <- !app_assoc, !append_assoc. cbn [app].
        repeat split; try lia.
        destruct Hend as [(-> & -> & -> & -> & Hj)
                         |[(-> & -> & Hf & -> & -> & Hj)
                          |[(-> & Hj & Hf & -> & ->)|(-> & Hj & Hf & -> & ->)]]].
        -- left. repeat split. intros ? [=].
        -- right. left. repeat split; try lia. intros ? [=].
        -- discriminate Hj.
        -- discriminate Hj.
Qed.

(** ** What the reflector sends back *)

(** The echo of a datagram: 512 bytes, the datagram's first ones in front. *)
Lemma echo_content b d :
  length b = 512%nat ->
  let e := SocketEntity.octets (landed b (Some d)) 512 in
  length e = 512%nat
  /\ firstn (length d) e = firstn 512 d
  /\ ((512 <= length d)%nat -> e = firstn 512 d)
  /\ ((length d <= 512)%nat -> e = d ++ skipn (length d) b)
  /\ (e = d <-> length d = 512%nat).
Proof.
  intros Hb e.
  assert (He : e = Libc.store b (firstn 512 d)).
  { subst e. unfold SocketEntity.octets, landed, SocketEntity.arrive.
    change (Z.to_nat 512) with 512%nat.
    apply firstn_all2. rewrite length_store. lia. }
  assert (Hlen : length e = 512%nat) by (rewrite He, length_store; exact Hb).
  destruct (Nat.le_gt_cases 512 (length d)) as [Hd|Hd].
  - assert (He' : e = firstn 512 d).
    { rewrite He, store_full by (rewrite length_firstn; lia).
      rewrite Hb. apply firstn_all2. rewrite length_firstn. lia. }
    repeat split.
    + exact Hlen.
    + rewrite firstn_all2 by lia. exact He'.
    + intros _. exact He'.
    + intros Hle. rewrite He', firstn_all2 by lia.
      rewrite skipn_all2 by lia. now rewrite app_nil_r.
    + intros E. rewrite E in Hlen. exact Hlen.
    + intros E. rewrite He'. apply firstn_all2. lia.
  - assert (He' : e = d ++ skipn (length d) b).
    { rewrite He, store_short by (rewrite length_firstn; lia).
      rewrite (firstn_all2 (n := 512) d) by lia. reflexivity. }
    repeat split.
    + exact Hlen.
    + rewrite He', firstn_app, Nat.sub_diag, firstn_O, app_nil_r.
      rewrite firstn_all, firstn_all2 by lia. reflexivity.
    + intros Hle. lia.
    + intros _. exact He'.
    + intros E. rewrite E in Hlen. exact Hlen.
    + intros E. lia.
Qed.

Lemma length_landed b r : length (landed b r) = length b.
Proof. destruct r; [apply length_arrive|reflexivity]. Qed.

(** On the wire, every receive of the reflector is followed at once by a
    send of the array the receive left. *)
Lemma echoes_nth rs : forall buffer i r,
  length buffer = 512%nat ->
  nth_error (echoes buffer rs) i = Some (received r) ->
  exists b,
    length b = 512%nat
    /\ nth_error (echoes buffer rs) (S i) =
       Some (sent (SocketEntity.octets (landed b r) 512)).
Proof.
  induction rs as [|r0 rs IH]; intros buffer i r Hb Hi.
  - destruct i; discriminate Hi.
  - destruct i as [|[|i]]; cbn in Hi.
    + injection Hi as <-. exists buffer. split; [exact Hb|reflexivity].
    + discriminate Hi.
    + apply IH in Hi; [|rewrite length_landed; exact Hb].
      exact Hi.
Qed.

Lemma echoes_sent rs : forall buffer,
  length buffer = 512%nat ->
  Forall (fun w => match w with
                   | sent o => length o = 512%nat
                   | _ => True
                   end) (echoes buffer rs).
Proof.
  induction rs as [|r rs IH]; intros buffer Hb; cbn; [constructor|].
  constructor; [exact I|]. constructor.
  - unfold SocketEntity.octets. rewrite length_firstn, length_landed, Hb.
    reflexivity.
  - apply IH. rewrite length_landed. exact Hb.
Qed.

Lemma octets_sent_Forall (P : list byte -> Prop) p :
  Forall (fun w => match w with sent o => P o | _ => True end) (socket p) ->
  Forall P (octets_sent p).
Proof.
  unfold octets_sent, sends. induction (socket p) as [|w ws IH]; intros H; cbn.
  - constructor.
  - inversion H as [|? ? Hw Hws]; subst.
    destruct w; cbn; auto.
Qed.

(** [Reflector::init] from start to end. *)
Lemma Reflector_init_spec CL_GREEN RESET m_port fuel p :
  exists k o tail,
    Reflector_init CL_GREEN RESET m_port fuel p =
      (halt o,
       mkProcess (posixly_correct p) (stack p) (stdin p) (skipn k (network p))
         (later_by (k + match o with exited _ => 0 | blocked => 1 | _ => 0 end)
            (sigint p))
         (stdout p ++ ("[REFLECTOR]: " ++ CL_GREEN ++ "started" ++ RESET ++ endl)
          ++ tail)%string
         (stderr p)
         (socket p ++ bound m_port
          :: echoes (Libc.uninitialised 512 (stack p)) (firstn k (network p))))
    /\ (k <= fuel)%nat /\ (k <= length (network p))%nat
    /\ ((o = out_of_fuel /\ k = fuel /\ tail = EmptyString
         /\ forall j, sigint p = Some j -> (k <= j)%nat)
        \/ (o = blocked /\ k = length (network p) /\ (k < fuel)%nat
            /\ tail = EmptyString
            /\ forall j, sigint p = Some j -> (k < j)%nat)
        \/ (o = exited Libc.EXIT_SUCCESS /\ sigint p = Some k /\ (k < fuel)%nat
            /\ tail = caught)).
Proof.
  unfold Reflector_init, cout, SocketEntity.setup_server, on_wire, automatic.
  unfold bind at 1 2 3. fields.
  match goal with
  | |- context [Reflector_loop fuel ?b ?q] =>
      destruct (Reflector_loop_spec fuel b q) as (k & o & tail & Heq & H)
  end.
  revert H. rewrite Heq. fields. intros H.
  exists k, o, tail. rewrite <- app_assoc, append_assoc. cbn [app].
  split; [reflexivity|exact H].
Qed.

Lemma Reflector_init_socket CL_GREEN RESET m_port fuel posix stk sin net sig :
  exists k,
    socket (snd (Reflector_init CL_GREEN RESET m_port fuel
                   (start posix stk sin net sig))) =
    bound m_port :: echoes (Libc.uninitialised 512 stk) (firstn k net).
Proof.
  destruct (Reflector_init_spec CL_GREEN RESET m_port fuel
              (start posix stk sin net sig)) as (k & o & tail & Heq & _).
  exists k. rewrite Heq. reflexivity.
Qed.

Lemma nth_error_next {A} (x : A) l n : nth_error (x :: l) (S n) = nth_error l n.
Proof. reflexivity. Qed.

(** The reflector's turn number [i], counted from 0, on the wire: the
    receive, and the send behind it. *)
Lemma echoes_at rs : forall buffer i r,
  length buffer = 512%nat ->
  nth_error rs i = Some r ->
  exists b,
    length b = 512%nat
    /\ nth_error (echoes buffer rs) (2 * i) = Some (received r)
    /\ nth_error (echoes buffer rs) (2 * i + 1) =
       Some (sent (SocketEntity.octets (landed b r) 512))
    /\ nth_error (sends (echoes buffer rs)) i =
       Some (SocketEntity.octets (landed b r) 512).
Proof.
  induction rs as [|r0 rs IH]; intros buffer i r Hb Hi.
  - destruct i; discriminate Hi.
  - destruct i as [|i].
    + injection Hi as <-. exists buffer.
      split; [exact Hb|]. split; [reflexivity|]. split; reflexivity.
    + cbn [nth_error] in Hi.
      destruct (IH (landed buffer r0) i r) as (b & Hlen & H0 & H1 & H2);
        [rewrite length_landed; exact Hb|exact Hi|].
      exists b. split; [exact Hlen|].
      replace (2 * S i)%nat with (S (S (2 * i))) by lia.
      cbn [echoes nth_error sends flat_map app plus].
      split; [exact H0|]. split; [exact H1|exact H2].
Qed.

Lemma nth_error_taken {A} (l : list A) : forall k i,
  (i < k)%nat -> nth_error (firstn k l) i = nth_error l i.
Proof.
  induction l as [|x l IH]; intros k i Hi.
  - now rewrite firstn_nil.
  - destruct k as [|k]; [lia|]. destruct i as [|i]; [reflexivity|].
    cbn [firstn nth_error]. apply IH. lia.
Qed.

(** C8. In every run of the reflector each send transmits exactly 512
    bytes, whatever the receive before it met (a datagram of any length, or
    a failure), and a datagram of 512 bytes or more is echoed as its first
    512 bytes. Every turn of the loop that the run gets to receives and
    sends: turn [i], counted from 0, takes entry [i] of what the network
    delivers and sends its 512 bytes at once, provided the budget of turns
    and the entries of the network reach that far and no interrupt comes
    before. *)
Theorem Reflector_sends_512_bytes CL_GREEN RESET m_port fuel posix stk sin net sig :
  let p' := snd (Reflector_init CL_GREEN RESET m_port fuel
                   (start posix stk sin net sig)) in
  Forall (fun o => length o = 512%nat) (octets_sent p')
  /\ (forall i r,
        nth_error (socket p') i = Some (received r) ->
        exists e,
          nth_error (socket p') (S i) = Some (sent e)
          /\ length e = 512%nat
          /\ forall d, r = Some d -> (512 <= length d)%nat -> e = firstn 512 d)
  /\ (forall i r,
        (i < fuel)%nat ->
        nth_error net i = Some r ->
        (forall j, sig = Some j -> (i < j)%nat) ->
        exists e,
          nth_error (socket p') (2 * i + 1) = Some (received r)
          /\ nth_error (socket p') (2 * i + 2) = Some (sent e)
          /\ nth_error (octets_sent p') i = Some e
          /\ length e = 512%nat
          /\ forall d, r = Some d -> (512 <= length d)%nat -> e = firstn 512 d).
Proof.
  intros p'.
  assert (Hb : length (Libc.uninitialised 512 stk) = 512%nat)
    by apply length_uninitialised.
  split; [|split].
  - destruct (Reflector_init_socket CL_GREEN RESET m_port fuel posix stk sin net sig)
      as (k & Hs).
    fold p' in Hs.
    apply octets_sent_Forall. rewrite Hs. constructor; [exact I|].
    apply echoes_sent, Hb.
  - destruct (Reflector_init_socket CL_GREEN RESET m_port fuel posix stk sin net sig)
      as (k & Hs).
    fold p' in Hs.
    intros i r Hi. rewrite Hs in Hi |- *.
    destruct i as [|i]; [discriminate Hi|]. cbn [nth_error] in Hi |- *.
    destruct (echoes_nth _ _ _ _ Hb Hi) as (b & Hlen & Hnext).
    eexists. split; [exact Hnext|]. split.
    + unfold SocketEntity.octets. rewrite length_firstn, length_landed, Hlen.
      reflexivity.
    + intros d -> Hd. apply (echo_content b d Hlen), Hd.
  - intros i r Hfuel Hr Hsig.
    destruct (Reflector_init_spec CL_GREEN RESET m_port fuel
                (start posix stk sin net sig))
      as (k & o & tail & Heq & Hk & Hl & Hend).
    assert (Hnet : (i < length net)%nat)
      by (apply nth_error_Some; rewrite Hr; discriminate).
    cbn [start network sigint] in Hl, Hend.
    assert (Hik : (i < k)%nat).
    { destruct Hend as [(_ & -> & _)|[(_ & -> & _)|(_ & Hj & _)]];
        [exact Hfuel|exact Hnet|exact (Hsig k Hj)]. }
    assert (Hs : socket p' =
                 bound m_port
                 :: echoes (Libc.uninitialised 512 stk) (firstn k net))
      by (subst p'; rewrite Heq; reflexivity).
    destruct (echoes_at (firstn k net) (Libc.uninitialised 512 stk) i r Hb)
      as (b & Hlen & H0 & H1 & H2);
      [rewrite nth_error_taken by exact Hik; exact Hr|].
    exists (SocketEntity.octets (landed b r) 512).
    unfold octets_sent. rewrite Hs.
    replace (2 * i + 1)%nat with (S (2 * i)) by lia.
    replace (2 * i + 2)%nat with (S (2 * i + 1)) by lia.
    rewrite !nth_error_next.
    split; [exact H0|]. split; [exact H1|]. split; [exact H2|]. split.
    + unfold SocketEntity.octets. rewrite length_firstn, length_landed, Hlen.
      reflexivity.
    + intros d -> Hd. apply (echo_content b d Hlen), Hd.
Qed.

Lemma Reflector_sends_512_bytes_witness :
  let p' := snd (Reflector_init green reset 9000 2
                   (start false stale [] [Some sequence_42; Some jumbo] None)) in
  exists e,
    nth_error (socket p') (2 * 1 + 1) = Some (received (Some jumbo))
    /\ nth_error (socket p') (2 * 1 + 2) = Some (sent e)
    /\ nth_error (octets_sent p') 1 = Some e
    /\ length e = 512%nat
    /\ forall d, Some jumbo = Some d -> (512 <= length d)%nat -> e = firstn 512 d.
Proof.
  intros p'.
  apply (proj2 (proj2 (Reflector_sends_512_bytes green reset 9000 2 false stale []
                         [Some sequence_42; Some jumbo] None))
           1%nat (Some jumbo)).
  - lia.
  - reflexivity.
  - discriminate.
Defined.

(** C1, as the code has it. In every run of the reflector a received
    datagram is followed at once by a send of exactly 512 bytes whose
    leading bytes are the datagram's; the echo is the datagram itself
    exactly when the datagram has 512 bytes, a shorter one is followed by
    what the array held before, a longer one is cut. *)
Theorem Reflector_echo_prefix CL_GREEN RESET m_port fuel posix stk sin net sig i d :
  let p' := snd (Reflector_init CL_GREEN RESET m_port fuel
                   (start posix stk sin net sig)) in
  nth_error (socket p') i = Some (received (Some d)) ->
  exists e,
    nth_error (socket p') (S i) = Some (sent e)
    /\ length e = 512%nat
    /\ firstn (length d) e = firstn 512 d
    /\ (e = d <-> length d = 512%nat).
Proof.
  intros p' Hi.
  destruct (Reflector_init_socket CL_GREEN RESET m_port fuel posix stk sin net sig)
    as (k & Hs).
  fold p' in Hs. rewrite Hs in Hi |- *.
  destruct i as [|i]; [discriminate Hi|]. cbn [nth_error] in Hi |- *.
  destruct (echoes_nth _ _ _ _ (length_uninitialised 512 stk) Hi)
    as (b & Hlen & Hnext).
  destruct (echo_content b d Hlen) as (H1 & H2 & _ & _ & H5).
  eexists. split; [exact Hnext|]. repeat split; try assumption; apply H5.
Qed.

Lemma Reflector_echo_prefix_witness :
  let p' := snd (Reflector_init green reset 9000 2
                   (start false stale [] [Some sequence_42] None)) in
  nth_error (socket p') 1 = Some (received (Some sequence_42))
  /\ exists e,
       nth_error (socket p') 2 = Some (sent e)
       /\ length e = 512%nat
       /\ firstn (length sequence_42) e = firstn 512 sequence_42
       /\ (e = sequence_42 <-> length sequence_42 = 512%nat).
Proof.
  intros p'.
  assert (H : nth_error (socket p') 1 = Some (received (Some sequence_42)))
    by (vm_compute; reflexivity).
  split; [exact H|].
  exact (Reflector_echo_prefix green reset 9000 2 false stale []
           [Some sequence_42] None 1%nat sequence_42 H).
Defined.

(** C1 fails as stated: the reflector started as [reflect -p 9000] receives
    the 64 bytes of [sequence_42] and sends back 512 bytes, the 64 received
    ones followed by 448 bytes of what its array held before. *)
Lemma Reflector_echo_not_exact :
  let p' := snd (run green reset reflect_9000 1
                   (start false stale [] [Some sequence_42] None)) in
  length sequence_42 = 64%nat
  /\ exists e,
       octets_sent p' = [e]
       /\ length e = 512%nat
       /\ e = sequence_42 ++ repeat x55 448
       /\ e <> sequence_42.
Proof.
  intros p'. split; [reflexivity|].
  exists (sequence_42 ++ repeat x55 448).
  split; [vm_compute; reflexivity|].
  split; [reflexivity|]. split; [reflexivity|].
  intros E. apply (f_equal (@length byte)) in E. vm_compute in E. discriminate E.
Qed.

(** A datagram of 600 bytes comes back as its first 512 bytes; a failed
    receive is followed by a send of the 512 bytes as they are. *)
Example Reflector_cuts_jumbo :
  octets_sent (snd (run green reset reflect_9000 2
                      (start false stale [] [Some jumbo; None] None)))
  = [firstn 512 jumbo; firstn 512 jumbo].
Proof. vm_compute. reflexivity. Qed.

(** ** What the meter sends and prints *)

Lemma sends_app ws ws' : sends (ws ++ ws') = sends ws ++ sends ws'.
Proof. apply flat_map_app. Qed.

Lemma typed_lines_snoc n k : forall stream,
  typed_lines n (S k) stream =
  typed_lines n k stream ++ [fst (taken n (lines_left n k stream))].
Proof.
  induction k as [|k IH]; intros stream; [reflexivity|].
  cbn [typed_lines lines_left app] in *. now rewrite <- IH.
Qed.


Lemma typed_lines_short n k : 0 <= n -> forall stream,
  Forall (fun line => (length line <= Z.to_nat n - 1)%nat)
         (typed_lines n k stream).
Proof.
  intros Hn. induction k as [|k IH]; intros stream; constructor.
  - apply taken_length, Hn.
  - apply IH.
Qed.

Lemma sends_probes n rs : forall stream,
  sends (probes n stream rs) = map (probe n) (typed_lines n (length rs) stream).
Proof.
  induction rs as [|r rs IH]; intros stream; [reflexivity|].
  cbn. f_equal. apply IH.
Qed.

(** [Meter::init] from start to end. *)
Lemma Meter_init_spec CL_GREEN RESET host port n time fuel p :
  0 <= n ->
  let r := Meter_init CL_GREEN RESET host port n time fuel p in
  exists k o tw tail,
    fst r = halt o
    /\ socket (snd r) =
       socket p ++ connected host port
       :: probes n (stdin p) (firstn k (network p)) ++ tw
    /\ stdout (snd r) =
       (stdout p ++ ("[METER]: " ++ CL_GREEN ++ "started" ++ RESET ++ endl)
        ++ chat n (firstn k (network p)) ++ tail)%string
    /\ stderr (snd r) = stderr p
    /\ (k <= fuel)%nat /\ (k <= length (network p))%nat
    /\ ((o = out_of_fuel /\ k = fuel /\ tw = [] /\ tail = EmptyString
         /\ forall j, sigint p = Some j -> (2 * k <= j)%nat)
        \/ (o = blocked /\ k = length (network p) /\ (k < fuel)%nat
            /\ tw = [sent (probe n (fst (taken n (lines_left n k (stdin p)))))]
            /\ tail = prompt
            /\ forall j, sigint p = Some j -> (2 * k + 2 <= j)%nat)
        \/ (o = exited Libc.EXIT_SUCCESS /\ sigint p = Some (2 * k)%nat
            /\ (k < fuel)%nat /\ tw = [] /\ tail = (prompt ++ caught)%string)
        \/ (o = exited Libc.EXIT_SUCCESS /\ sigint p = Some (2 * k + 1)%nat
            /\ (k < fuel)%nat
            /\ tw = [sent (probe n (fst (taken n (lines_left n k (stdin p)))))]
            /\ tail = (prompt ++ caught)%string)).
Proof.
  intros Hn r.
  assert (E : r =
    Meter_loop n fuel (Libc.uninitialised (Z.to_nat n) (stack p))
      (mkProcess (posixly_correct p) (stack p) (stdin p) (network p) (sigint p)
         (stdout p ++ ("[METER]: " ++ CL_GREEN ++ "started" ++ RESET ++ endl))%string
         (stderr p) (socket p ++ [connected host port]))) by reflexivity.
  rewrite E. clear E r.
  match goal with
  | |- context [Meter_loop n fuel ?b ?q] =>
      destruct (Meter_loop_spec n fuel Hn b q (length_uninitialised _ _))
        as (k & o & tw & tail & Ho & Hw & Hout & Herr & H)
  end.
  revert H. rewrite Ho, Hw, Hout, Herr. fields. intros H.
  exists k, o, tw, tail.
  rewrite <- !app_assoc, !append_assoc. cbn [app].
  repeat split; try reflexivity; apply H.
Qed.

(** The payloads of a meter's sends are the lines [fgets] took, each filled
    up with zeros. *)
Lemma Meter_init_sends CL_GREEN RESET host port n time fuel posix stk sin net sig :
  0 <= n ->
  exists k,
    octets_sent (snd (Meter_init CL_GREEN RESET host port n time fuel
                        (start posix stk sin net sig))) =
    map (probe n) (typed_lines n k sin)
    /\ (k <= fuel)%nat.
Proof.
  intros Hn.
  destruct (Meter_init_spec CL_GREEN RESET host port n time fuel
              (start posix stk sin net sig) Hn)
    as (k & o & tw & tail & _ & Hw & _ & _ & Hk & Hl & Hend).
  unfold octets_sent. rewrite Hw.
  cbn [start socket stdin network app] in Hl, Hend |- *.
  cbn [sends flat_map app].
  fold (sends (probes n sin (firstn k net) ++ tw)).
  rewrite sends_app, sends_probes, length_firstn, Nat.min_l by exact Hl.
  destruct Hend as [(_ & _ & -> & _)|[(_ & _ & Hf & -> & _)
                   |[(_ & _ & _ & -> & _)|(_ & _ & Hf & -> & _)]]].
  - exists k. rewrite app_nil_r. split; [reflexivity|lia].
  - exists (S k). rewrite typed_lines_snoc, map_app. split; [reflexivity|lia].
  - exists k. rewrite app_nil_r. split; [reflexivity|lia].
  - exists (S k). rewrite typed_lines_snoc, map_app. split; [reflexivity|lia].
Qed.

Lemma length_typed_lines n k : forall stream, length (typed_lines n k stream) = k.
Proof.
  induction k as [|k IH]; intros stream; [reflexivity|]. cbn. now rewrite IH.
Qed.

(** How far a run of the meter gets: the turns it completes, the probes it
    has sent ([sending] counts the probe of a turn that was not completed),
    what it has printed, and how it ends. *)
Lemma Meter_init_run CL_GREEN RESET host port n time fuel posix stk sin net sig :
  0 <= n ->
  let r := Meter_init CL_GREEN RESET host port n time fuel
             (start posix stk sin net sig) in
  exists k sending o tail,
    fst r = halt o
    /\ octets_sent (snd r) = map (probe n) (typed_lines n (k + sending) sin)
    /\ stdout (snd r) =
       (("[METER]: " ++ CL_GREEN ++ "started" ++ RESET ++ endl)
        ++ chat n (firstn k net) ++ tail)%string
    /\ (k <= fuel)%nat /\ (k <= length net)%nat
    /\ ((o = out_of_fuel /\ k = fuel /\ sending = 0%nat /\ tail = EmptyString
         /\ forall j, sig = Some j -> (2 * k <= j)%nat)
        \/ (o = blocked /\ k = length net /\ (k < fuel)%nat
            /\ sending = 1%nat /\ tail = prompt
            /\ forall j, sig = Some j -> (2 * k + 2 <= j)%nat)
        \/ (o = exited Libc.EXIT_SUCCESS /\ sig = Some (2 * k)%nat
            /\ (k < fuel)%nat /\ sending = 0%nat
            /\ tail = (prompt ++ caught)%string)
        \/ (o = exited Libc.EXIT_SUCCESS /\ sig = Some (2 * k + 1)%nat
            /\ (k < fuel)%nat /\ sending = 1%nat
            /\ tail = (prompt ++ caught)%string)).
Proof.
  intros Hn r.
  destruct (Meter_init_spec CL_GREEN RESET host port n time fuel
              (start posix stk sin net sig) Hn)
    as (k & o & tw & tail & Ho & Hw & Hout & _ & Hk & Hl & Hend).
  fold r in Ho, Hw, Hout.
  cbn [start socket stdin network sigint stdout app] in Hw, Hout, Hl, Hend.
  assert (Hsent : octets_sent (snd r) =
                  map (probe n) (typed_lines n k sin) ++ sends tw).
  { unfold octets_sent. rewrite Hw. cbn [sends flat_map app].
    fold (sends (probes n sin (firstn k net) ++ tw)).
    rewrite sends_app, sends_probes, length_firstn, Nat.min_l by exact Hl.
    reflexivity. }
  destruct Hend as [(-> & -> & -> & -> & Hj)
                   |[(-> & -> & Hf & -> & -> & Hj)
                    |[(-> & Hj & Hf & -> & ->)|(-> & Hj & Hf & -> & ->)]]].
  - exists fuel, 0%nat, out_of_fuel, EmptyString.
    rewrite Hsent, Nat.add_0_r, app_nil_r.
    repeat (split; [first [reflexivity|assumption]|]).
    left. repeat (split; [first [reflexivity|assumption]|]). exact Hj.
  - exists (length net), 1%nat, blocked, prompt.
    rewrite Hsent, Nat.add_1_r, typed_lines_snoc, map_app.
    repeat (split; [first [reflexivity|assumption]|]).
    right. left. repeat (split; [first [reflexivity|assumption]|]). exact Hj.
  - exists k, 0%nat, (exited Libc.EXIT_SUCCESS), (prompt ++ caught)%string.
    rewrite Hsent, Nat.add_0_r, app_nil_r.
    repeat (split; [first [reflexivity|assumption]|]).
    right. right. left. repeat (split; [first [reflexivity|assumption]|]).
    reflexivity.
  - exists k, 1%nat, (exited Libc.EXIT_SUCCESS), (prompt ++ caught)%string.
    rewrite Hsent, Nat.add_1_r, typed_lines_snoc, map_app.
    repeat (split; [first [reflexivity|assumption]|]).
    right. right. right. repeat (split; [first [reflexivity|assumption]|]).
    reflexivity.
Qed.

(** A run that no interrupt cuts short and whose receives all complete:
    every turn of the budget is completed. *)
Lemma Meter_init_answered_run
      CL_GREEN RESET host port n time fuel posix stk sin net sig :
  0 <= n ->
  (forall j, sig = Some j -> (2 * fuel <= j)%nat) ->
  (fuel <= length net)%nat ->
  let r := Meter_init CL_GREEN RESET host port n time fuel
             (start posix stk sin net sig) in
  fst r = halt out_of_fuel
  /\ octets_sent (snd r) = map (probe n) (typed_lines n fuel sin)
  /\ stdout (snd r) =
     (("[METER]: " ++ CL_GREEN ++ "started" ++ RESET ++ endl)
      ++ chat n (firstn fuel net))%string.
Proof.
  intros Hn Hsig Hfuel r.
  destruct (Meter_init_run CL_GREEN RESET host port n time fuel
              posix stk sin net sig Hn)
    as (k & sending & o & tail & Ho & Hs & Hout & Hk & Hl & Hend).
  fold r in Ho, Hs, Hout.
  destruct Hend as [(-> & -> & -> & -> & _)
                   |[(_ & -> & Hf & _)
                    |[(_ & Hj & Hf & _)|(_ & Hj & Hf & _)]]];
    try lia; try (specialize (Hsig _ Hj); lia).
  rewrite Nat.add_0_r in Hs. rewrite append_nil_r in Hout.
  split; [exact Ho|]. split; [exact Hs|exact Hout].
Qed.



(** C9. In meter mode every send transmits exactly [m_probe_size] bytes,
    whatever [fgets] read for that turn of the loop. For a probe size of at
    most [UDP_PAYLOAD_MAX] every turn that the run gets to sends: turn [i],
    counted from 0, sends probe number [i], provided the budget of turns
    reaches that far, the [i] receives before it completed and left the
    array terminated, and no interrupt comes before the send. *)
Theorem Meter_sends_probe_size_bytes
        CL_GREEN RESET host port n time fuel posix stk sin net sig :
  0 <= n ->
  let p' := snd (Meter_init CL_GREEN RESET host port n time fuel
                   (start posix stk sin net sig)) in
  Forall (fun o => Z.of_nat (length o) = n) (octets_sent p')
  /\ (n <= UDP_PAYLOAD_MAX ->
      forall i,
        (i < fuel)%nat -> (i <= length net)%nat ->
        Forall (terminated n) (firstn i net) ->
        (forall j, sig = Some j -> (2 * i < j)%nat) ->
        exists e,
          nth_error (octets_sent p') i = Some e
          /\ Z.of_nat (length e) = n).
Proof.
  intros Hn p'.
  destruct (Meter_init_run CL_GREEN RESET host port n time fuel
              posix stk sin net sig Hn)
    as (k & sending & o & tail & _ & Hs & _ & Hk & Hl & Hend).
  fold p' in Hs.
  assert (Hall : Forall (fun o => Z.of_nat (length o) = n) (octets_sent p')).
  { rewrite Hs. apply Forall_map.
    eapply Forall_impl; [|apply (typed_lines_short n (k + sending) Hn sin)].
    cbn beta. intros line Hline. rewrite length_probe by lia. lia. }
  split; [exact Hall|].
  intros _ i Hfuel Hnet _ Hsig.
  assert (Hi : (i < length (octets_sent p'))%nat).
  { rewrite Hs, length_map, length_typed_lines.
    destruct Hend as [(_ & -> & _)
                     |[(_ & -> & _ & -> & _)
                      |[(_ & Hj & _)|(_ & Hj & _ & -> & _)]]];
      try lia; specialize (Hsig _ Hj); lia. }
  destruct (nth_error (octets_sent p') i) as [e|] eqn:He;
    [|apply nth_error_None in He; lia].
  exists e. split; [reflexivity|].
  apply nth_error_In in He.
  exact (proj1 (Forall_forall _ _) Hall e He).
Qed.

Lemma Meter_sends_probe_size_bytes_witness :
  0 <= 8
  /\ let p' := snd (Meter_init green reset "localhost" 9000 8 (Libc.atof "1") 3
                      (start false [] typed_abc three_answers None)) in
     length (octets_sent p') = 3%nat
     /\ exists e, nth_error (octets_sent p') 2 = Some e /\ Z.of_nat (length e) = 8.
Proof.
  split; [lia|]. intros p'. split; [vm_compute; reflexivity|].
  apply (proj2 (Meter_sends_probe_size_bytes green reset "localhost" 9000 8
                  (Libc.atof "1") 3 false [] typed_abc three_answers None
                  ltac:(lia))).
  - unfold UDP_PAYLOAD_MAX. lia.
  - lia.
  - cbn. lia.
  - repeat (apply Forall_cons || apply Forall_nil);
      vm_compute; do 3 right; left; reflexivity.
  - discriminate.
Defined.






(** ** How a run ends *)

Lemma run_accepted CL_GREEN RESET argv fuel p mtrip :
  argument_parser argv p = (value (Some mtrip), p) ->
  run CL_GREEN RESET argv fuel p =
  match init CL_GREEN RESET mtrip fuel p with
  | (value _, p') => (exited Libc.EXIT_SUCCESS, p')
  | (halt o, p') => (o, p')
  end.
Proof.
  intros H. unfold run, main. unfold bind at 1. rewrite H.
  unfold bind, ret. destruct (init CL_GREEN RESET mtrip fuel p) as [[[]|o] p'];
    reflexivity.
Qed.

Lemma run_rejected CL_GREEN RESET argv fuel p p' :
  argument_parser argv p = (value None, p') ->
  run CL_GREEN RESET argv fuel p = (exited Libc.EXIT_FAILURE, p').
Proof. intros H. unfold run, main, bind. rewrite H. reflexivity. Qed.

Lemma run_exited CL_GREEN RESET argv fuel p o p' :
  argument_parser argv p = (halt o, p') ->
  run CL_GREEN RESET argv fuel p = (o, p').
Proof. intros H. unfold run, main, bind. rewrite H. reflexivity. Qed.









(** ** The command line *)

Lemma assigned_later {A} c (conv : string -> A) r rets before after :
  assigned c conv rets before after ->
  assigned c conv (r :: rets) before after.
Proof.
  intros [H|(a & Hin & H)]; [left; exact H|].
  right. exists a. split; [right; exact Hin|exact H].
Qed.

Lemma assigned_now {A} c (conv : string -> A) optarg rets before after :
  assigned c conv rets (Some (conv optarg)) after ->
  assigned c conv (Getopt.opt c optarg :: rets) before after.
Proof.
  intros [H|(a & Hin & H)].
  - right. exists optarg. split; [left; reflexivity|exact H].
  - right. exists a. split; [right; exact Hin|exact H].
Qed.

Lemma cerr_complained msg p : cerr (msg ++ endl)%string p = (value tt, complained msg p).
Proof. reflexivity. Qed.

Lemma meter_getopt_error_diagnostic optopt p :
  exists msg,
    meter_getopt_error optopt p = (value tt, complained msg p) /\ diagnostic msg.
Proof.
  unfold meter_getopt_error.
  destruct (_ || _)%bool; [|destruct (Libc.isprint optopt)].
  - exists ("Option -" ++ char optopt ++ " requires an argument.")%string.
    split; [reflexivity|constructor].
  - exists ("Uknown option '-" ++ char optopt ++ "'")%string.
    split; [reflexivity|constructor].
  - exists "Unknown option character. ". split; [reflexivity|constructor].
Qed.

Lemma reflect_getopt_error_diagnostic optopt p :
  exists msg,
    reflect_getopt_error optopt p = (value tt, complained msg p)
    /\ diagnostic msg.
Proof.
  unfold reflect_getopt_error.
  destruct (Ascii.eqb optopt "p"); [|destruct (Libc.isprint optopt)].
  - exists ("Option -" ++ char "p" ++ " requires an argument.")%string.
    split; [reflexivity|constructor].
  - exists ("Uknown option '-" ++ char optopt ++ "'")%string.
    split; [reflexivity|constructor].
  - exists "Unknown option character. ". split; [reflexivity|constructor].
Qed.

(** The loop over the meter's options returns the locals, each as it was or
    assigned from an option, or exits with status 1 after one diagnostic. *)
Lemma meter_getopt_loop_cases rets : forall l p,
  (exists l', meter_getopt_loop rets l p = (value l', p)
              /\ meter_assigned rets l l')
  \/ (exists msg, meter_getopt_loop rets l p = (halt (exited 1), complained msg p)
                  /\ diagnostic msg).
Proof.
  induction rets as [|[c optarg|optopt] rets IH]; intros l p.
  - left. exists l. split; [reflexivity|]. repeat split; left; reflexivity.
  - cbn [meter_getopt_loop].
    destruct (Ascii.eqb c "h") eqn:Eh; [|destruct (Ascii.eqb c "p") eqn:Ep;
      [|destruct (Ascii.eqb c "s") eqn:Es; [|destruct (Ascii.eqb c "t") eqn:Et]]].
    + apply Ascii.eqb_eq in Eh. subst c.
      match goal with |- context [meter_getopt_loop rets ?m p] =>
        destruct (IH m p) as [(l' & Heq & H1 & H2 & H3 & H4)|H] end;
        [left|right; exact H].
      exists l'. split; [exact Heq|]. cbn in H1, H2, H3, H4.
      repeat split; [apply assigned_now, H1| | |]; apply assigned_later; assumption.
    + apply Ascii.eqb_eq in Ep. subst c.
      match goal with |- context [meter_getopt_loop rets ?m p] =>
        destruct (IH m p) as [(l' & Heq & H1 & H2 & H3 & H4)|H] end;
        [left|right; exact H].
      exists l'. split; [exact Heq|]. cbn in H1, H2, H3, H4.
      repeat split; [|apply (assigned_now "p" port_of), H2| |];
        apply assigned_later; assumption.
    + apply Ascii.eqb_eq in Es. subst c.
      match goal with |- context [meter_getopt_loop rets ?m p] =>
        destruct (IH m p) as [(l' & Heq & H1 & H2 & H3 & H4)|H] end;
        [left|right; exact H].
      exists l'. split; [exact Heq|]. cbn in H1, H2, H3, H4.
      repeat split; [| |apply (assigned_now "s" size_of), H3|];
        apply assigned_later; assumption.
    + apply Ascii.eqb_eq in Et. subst c.
      match goal with |- context [meter_getopt_loop rets ?m p] =>
        destruct (IH m p) as [(l' & Heq & H1 & H2 & H3 & H4)|H] end;
        [left|right; exact H].
      exists l'. split; [exact Heq|]. cbn in H1, H2, H3, H4.
      repeat split; [| | |apply (assigned_now "t" Libc.atof), H4];
        apply assigned_later; assumption.
    + right. exists "uknown getopt() error". split; [reflexivity|constructor].
  - right. cbn [meter_getopt_loop].
    destruct (meter_getopt_error_diagnostic optopt p) as (msg & Heq & Hd).
    exists msg. split; [|exact Hd]. unfold bind. rewrite Heq. reflexivity.
Qed.

Lemma reflect_getopt_loop_cases rets : forall port p,
  match port with Some n => 0 <= n < 2 ^ 32 | None => True end ->
  (exists port', reflect_getopt_loop rets port p = (value port', p)
                 /\ match port' with
                    | Some n => 0 <= n < 2 ^ 32
                    | None => port = None
                    end)
  \/ (exists msg,
        reflect_getopt_loop rets port p = (halt (exited 1), complained msg p)
        /\ diagnostic msg).
Proof.
  induction rets as [|[c optarg|optopt] rets IH]; intros port p Hport.
  - left. exists port. split; [reflexivity|]. destruct port; [exact Hport|reflexivity].
  - cbn [reflect_getopt_loop]. destruct (Ascii.eqb c "p").
    + destruct (IH (Some (Libc.to_unsigned_int (Libc.atoi optarg))) p)
        as [(port' & Heq & Hp)|H].
      * apply Z.mod_pos_bound. lia.
      * left. exists port'. split; [exact Heq|].
        destruct port'; [exact Hp|discriminate Hp].
      * right. exact H.
    + right. exists "uknown getopt() error".
      split; [reflexivity|constructor].
  - right. cbn [reflect_getopt_loop].
    destruct (reflect_getopt_error_diagnostic optopt p) as (msg & Heq & Hd).
    exists msg. split; [|exact Hd]. unfold bind. rewrite Heq. reflexivity.
Qed.

Lemma meter_branch argv p :
  let rets := Getopt.scan (posixly_correct p) "h:p:s:t:" (skipn 2 argv) in
  (Z.of_nat (length argv) <? 4) = false ->
  String.eqb (nth 1 argv EmptyString) "meter" = true ->
  (exists host optarg_p optarg_s optarg_t,
      argument_parser argv p =
        (value (Some (Meter host (port_of optarg_p) (size_of optarg_s)
                         (Libc.atof optarg_t))), p)
      /\ In (Getopt.opt "h" host) rets /\ In (Getopt.opt "p" optarg_p) rets
      /\ In (Getopt.opt "s" optarg_s) rets /\ In (Getopt.opt "t" optarg_t) rets)
  \/ (exists l,
        meter_getopt_loop rets (mkMeterLocals None None None None) p = (value l, p)
        /\ meter_assigned rets (mkMeterLocals None None None None) l
        /\ (host_name l = None \/ port l = None \/ probe_size l = None
            \/ measurment_time l = None)
        /\ argument_parser argv p =
           (value None, complained "Not all argument options passed in." p))
  \/ (exists msg,
        argument_parser argv p = (halt (exited 1), complained msg p)
        /\ diagnostic msg).
Proof.
  intros rets Hargc Hmode.
  remember (argument_parser argv p) as R eqn:ER.
  unfold argument_parser in ER. rewrite Hargc, Hmode in ER.
  unfold bind at 1, getopt in ER. cbv beta iota in ER. fold rets in ER.
  unfold bind at 1 in ER.
  destruct (meter_getopt_loop_cases rets (mkMeterLocals None None None None) p)
    as [(l & Heq & Hass)|(msg & Heq & Hd)]; rewrite Heq in ER;
    cbv beta iota in ER.
  - pose proof Hass as (H1 & H2 & H3 & H4).
    destruct l as [[h|] [pt|] [n|] [t|]];
      cbn [host_name port probe_size measurment_time] in H1, H2, H3, H4, ER;
      try (right; left; eexists; split; [exact Heq|];
           split; [exact Hass|]; split; [cbn; tauto|exact ER]).
    left.
    destruct H1 as [H1|(a1 & Hi1 & [= ->])]; [discriminate H1|].
    destruct H2 as [H2|(a2 & Hi2 & [= ->])]; [discriminate H2|].
    destruct H3 as [H3|(a3 & Hi3 & [= ->])]; [discriminate H3|].
    destruct H4 as [H4|(a4 & Hi4 & [= ->])]; [discriminate H4|].
    exists a1, a2, a3, a4. split; [exact ER|]. repeat split; assumption.
  - right. right. exists msg. split; [exact ER|exact Hd].
Qed.

Lemma size_of_range optarg : 0 <= size_of optarg < 2 ^ 64.
Proof. apply Z.mod_pos_bound. lia. Qed.

Lemma port_of_range optarg : 0 <= port_of optarg < 2 ^ 16.
Proof. apply Z.mod_pos_bound. lia. Qed.

Lemma reflect_branch argv p :
  (Z.of_nat (length argv) <? 4) = false ->
  String.eqb (nth 1 argv EmptyString) "meter" = false ->
  String.eqb (nth 1 argv EmptyString) "reflect" = true ->
  (exists n, argument_parser argv p = (value (Some (Reflector n)), p)
             /\ 0 <= n < 2 ^ 32)
  \/ argument_parser argv p =
     (value None, complained "Required option not passed in." p)
  \/ (exists msg,
        argument_parser argv p = (halt (exited 1), complained msg p)
        /\ diagnostic msg).
Proof.
  intros Hargc Hmeter Hreflect.
  remember (argument_parser argv p) as R eqn:ER.
  unfold argument_parser in ER. rewrite Hargc, Hmeter, Hreflect in ER.
  unfold bind at 1, getopt in ER. cbv beta iota in ER.
  unfold bind at 1 in ER.
  match type of ER with context [reflect_getopt_loop ?rets None p] =>
    destruct (reflect_getopt_loop_cases rets None p I)
      as [(port' & Heq & Hp)|(msg & Heq & Hd)]; rewrite Heq in ER end;
    cbv beta iota in ER.
  - destruct port' as [n|].
    + left. exists n. split; [exact ER|exact Hp].
    + right. left. exact ER.
  - right. right. exists msg. split; [exact ER|exact Hd].
Qed.

(** [argument_parser] leaves the process as it was and returns a
    configuration, or writes one diagnostic and returns [nullptr] or exits
    with status 1. *)
Lemma argument_parser_cases argv p :
  (exists mtrip,
      argument_parser argv p = (value (Some mtrip), p) /\ representable mtrip)
  \/ (exists msg,
        argument_parser argv p = (value None, complained msg p)
        /\ diagnostic msg)
  \/ (exists msg,
        argument_parser argv p = (halt (exited 1), complained msg p)
        /\ diagnostic msg).
Proof.
  destruct (Z.of_nat (length argv) <? 4) eqn:Hargc.
  { right. left. exists "Wrong number of arguments.".
    unfold argument_parser. rewrite Hargc. split; [reflexivity|constructor]. }
  destruct (String.eqb (nth 1 argv EmptyString) "meter") eqn:Hmeter.
  { destruct (meter_branch argv p Hargc Hmeter)
      as [(h & a2 & a3 & a4 & Heq & _)|[(l & _ & _ & _ & Heq)|H]].
    - left. eexists. split; [exact Heq|].
      split; [apply port_of_range|apply size_of_range].
    - right. left. eexists. split; [exact Heq|constructor].
    - right. right. exact H. }
  destruct (String.eqb (nth 1 argv EmptyString) "reflect") eqn:Hreflect.
  - destruct (reflect_branch argv p Hargc Hmeter Hreflect)
      as [(n & Heq & Hn)|[Heq|H]].
    + left. exists (Reflector n). split; [exact Heq|exact Hn].
    + right. left. eexists. split; [exact Heq|constructor].
    + right. right. exact H.
  - right. left.
    exists "Undefined mode inside an argument passed to the application.".
    unfold argument_parser. rewrite Hargc, Hmeter, Hreflect.
    split; [reflexivity|constructor].
Qed.

Lemma meter_getopt_loop_total rets : meter_options_only rets -> forall l p,
  exists l', meter_getopt_loop rets l p = (value l', p).
Proof.
  induction 1 as [|r rets (c & optarg & -> & Hc) _ IH]; intros l p.
  - exists l. reflexivity.
  - cbn [meter_getopt_loop].
    destruct Hc as [<-|[<-|[<-|[<-|[]]]]]; cbn; apply IH.
Qed.

(** When [getopt] returns options of the meter only and none of them is
    the option [c], the parser prints the same line whichever [c] it is. *)
Lemma meter_branch_absent argv p c :
  let rets := Getopt.scan (posixly_correct p) "h:p:s:t:" (skipn 2 argv) in
  (Z.of_nat (length argv) <? 4) = false ->
  String.eqb (nth 1 argv EmptyString) "meter" = true ->
  meter_options_only rets ->
  In c ["h"; "p"; "s"; "t"]%char ->
  (forall optarg, ~ In (Getopt.opt c optarg) rets) ->
  argument_parser argv p =
  (value None, complained "Not all argument options passed in." p).
Proof.
  intros rets Hargc Hmode Honly Hc Habsent.
  destruct (meter_getopt_loop_total rets Honly
              (mkMeterLocals None None None None) p) as (l0 & Hl0).
  destruct (meter_branch argv p Hargc Hmode)
    as [(h & a2 & a3 & a4 & _ & Hi1 & Hi2 & Hi3 & Hi4)
       |[(l & _ & _ & _ & Heq)|(msg & Heq & _)]].
  - exfalso. fold rets in Hi1, Hi2, Hi3, Hi4.
    destruct Hc as [<-|[<-|[<-|[<-|[]]]]]; eapply Habsent; eassumption.
  - exact Heq.
  - exfalso. unfold argument_parser in Heq. rewrite Hargc, Hmode in Heq.
    unfold bind at 1, getopt in Heq. cbv beta iota in Heq. fold rets in Heq.
    unfold bind at 1 in Heq. rewrite Hl0 in Heq. cbv beta iota in Heq.
    destruct l0 as [[h|] [pt|] [n|] [t|]]; discriminate Heq.
Qed.

(** After a configuration was accepted, the run is still looping, is
    waiting in a receive, or was ended by the interrupt handler. *)
Lemma run_accepted_outcome CL_GREEN RESET argv fuel p mtrip :
  argument_parser argv p = (value (Some mtrip), p) ->
  representable mtrip ->
  let r := run CL_GREEN RESET argv fuel p in
  (fst r = out_of_fuel \/ fst r = blocked
   \/ (fst r = exited Libc.EXIT_SUCCESS /\ sigint p <> None
       /\ exists out, stdout (snd r) = (out ++ caught)%string))
  /\ (forall j, sigint p = Some j -> (j < fuel)%nat ->
      (j <= length (network p))%nat -> fst r = exited Libc.EXIT_SUCCESS)
  /\ stderr (snd r) = stderr p.
Proof.
  intros Hacc Hrep r. subst r. rewrite (run_accepted _ _ _ _ _ _ Hacc).
  destruct mtrip as [host port n time|port]; cbn [init].
  - destruct Hrep as [_ [Hn _]].
    destruct (Meter_init_spec CL_GREEN RESET host port n time fuel p Hn)
      as (k & o & tw & tail & Ho & _ & Hout & Herr & Hk & Hl & Hend).
    destruct (Meter_init CL_GREEN RESET host port n time fuel p) as [[[]|o'] q];
      cbn [fst snd] in *; [discriminate Ho|]. injection Ho as ->.
    split; [|split; [|exact Herr]].
    + destruct Hend as [(-> & _)|[(-> & _)|[(-> & Hs & _ & _ & ->)
                                           |(-> & Hs & _ & _ & ->)]]]; auto;
        right; right; (split; [reflexivity|]);
        (split; [rewrite Hs; discriminate|]);
        eexists; rewrite Hout, <- !append_assoc; reflexivity.
    + intros j Hj Hf Hn'.
      destruct Hend as [(-> & -> & _ & _ & H)|[(-> & -> & _ & _ & _ & H)
                       |[(-> & _)|(-> & _)]]]; try reflexivity;
        specialize (H j Hj); lia.
  - destruct (Reflector_init_spec CL_GREEN RESET port fuel p)
      as (k & o & tail & Heq & Hk & Hl & Hend).
    rewrite Heq. cbn [fst snd stdout stderr].
    split; [|split; [|reflexivity]].
    + destruct Hend as [(-> & _)|[(-> & _)|(-> & Hs & _ & ->)]]; auto.
      right. right. split; [reflexivity|]. split; [rewrite Hs; discriminate|].
      eexists. rewrite <- !append_assoc. reflexivity.
    + intros j Hj Hf Hn'.
      destruct Hend as [(-> & -> & _ & H)|[(-> & -> & _ & _ & H)|(-> & _)]];
        try reflexivity; specialize (H j Hj); lia.
Qed.

(** After a configuration was refused, the process has ended with status 1
    and one diagnostic, and has done nothing else. *)
Lemma run_refused CL_GREEN RESET argv fuel p :
  (forall mtrip, fst (argument_parser argv p) <> value (Some mtrip)) ->
  exists msg,
    run CL_GREEN RESET argv fuel p = (exited Libc.EXIT_FAILURE, complained msg p)
    /\ diagnostic msg.
Proof.
  intros Hrefused.
  destruct (argument_parser_cases argv p)
    as [(mtrip & Heq & _)|[(msg & Heq & Hd)|(msg & Heq & Hd)]].
  - exfalso. apply (Hrefused mtrip). rewrite Heq. reflexivity.
  - exists msg. split; [apply run_rejected, Heq|exact Hd].
  - exists msg. split; [apply run_exited, Heq|exact Hd].
Qed.

(** C10. With fewer than 4 entries in [argv], the program name included,
    [argument_parser] returns no configuration and the process exits with
    [EXIT_FAILURE]; all that happened is the line "Wrong number of
    arguments." on standard error, whatever the entries are, also when an
    option value is attached to its flag. *)
Theorem too_few_arguments CL_GREEN RESET argv fuel p :
  (length argv < 4)%nat ->
  argument_parser argv p =
    (value None, complained "Wrong number of arguments." p)
  /\ run CL_GREEN RESET argv fuel p =
     (exited Libc.EXIT_FAILURE, complained "Wrong number of arguments." p)
  /\ Libc.EXIT_FAILURE <> 0.
Proof.
  intros Hargc.
  assert (H : argument_parser argv p =
              (value None, complained "Wrong number of arguments." p)).
  { unfold argument_parser.
    replace (Z.of_nat (length argv) <? 4) with true
      by (symmetry; apply Z.ltb_lt; lia).
    reflexivity. }
  split; [exact H|]. split; [apply run_rejected, H|discriminate].
Qed.

Lemma too_few_arguments_witness :
  (length attached_argv < 4)%nat
  /\ argument_parser attached_argv idle =
     (value None, complained "Wrong number of arguments." idle)
  /\ run green reset attached_argv 7 idle =
     (exited Libc.EXIT_FAILURE, complained "Wrong number of arguments." idle)
  /\ Libc.EXIT_FAILURE <> 0.
Proof.
  assert (H : (length attached_argv < 4)%nat) by (cbn; lia).
  split; [exact H|].
  exact (too_few_arguments green reset attached_argv 7 idle H).
Defined.

(** C6. A refused command line ends the process with the non-zero status
    [EXIT_FAILURE]. After an accepted one the only exit is the interrupt
    handler's, with status 0 and its message last on standard output, and
    an interrupt during either loop does end the process that way. *)
Theorem exit_status_by_cause CL_GREEN RESET argv fuel p :
  let r := run CL_GREEN RESET argv fuel p in
  ((forall mtrip, fst (argument_parser argv p) <> value (Some mtrip)) ->
   fst r = exited Libc.EXIT_FAILURE /\ Libc.EXIT_FAILURE <> 0)
  /\ (forall mtrip,
        fst (argument_parser argv p) = value (Some mtrip) ->
        (forall status,
            fst r = exited status ->
            status = 0 /\ sigint p <> None
            /\ exists out, stdout (snd r) = (out ++ caught)%string)
        /\ (forall j,
              sigint p = Some j -> (j < fuel)%nat ->
              (j <= length (network p))%nat -> fst r = exited 0)).
Proof.
  intros r. split.
  - intros Hrefused.
    destruct (run_refused CL_GREEN RESET argv fuel p Hrefused) as (msg & Heq & _).
    subst r. rewrite Heq. split; [reflexivity|discriminate].
  - intros mtrip Hacc.
    destruct (argument_parser_cases argv p)
      as [(mtrip' & Heq & Hrep)|[(msg & Heq & _)|(msg & Heq & _)]];
      rewrite Heq in Hacc; try discriminate Hacc.
    destruct (run_accepted_outcome CL_GREEN RESET argv fuel p mtrip' Heq Hrep)
      as (Hout & Hint & _).
    fold r in Hout, Hint. split; [|exact Hint].
    intros status Hst. rewrite Hst in Hout.
    destruct Hout as [H|[H|([= ->] & Hs & Hc)]]; try discriminate H.
    repeat split; assumption.
Qed.

(** An interrupt during the reflector's second receive, and one during the
    meter's first receive: both processes end with status 0. *)
Example interrupted_reflector :
  fst (run green reset reflect_9000 9
         (start false stale [] [Some sequence_42; Some jumbo] (Some 1%nat)))
  = exited 0.
Proof. vm_compute. reflexivity. Qed.

Example interrupted_meter :
  fst (run green reset meter_argv 9
         (start false [] typed_abc three_answers (Some 1%nat)))
  = exited 0.
Proof. vm_compute. reflexivity. Qed.

(** C5, as the code has it. A command line that yields no configuration
    ends the process with status [EXIT_FAILURE] after exactly one line on
    standard error, one of the parser's fixed diagnostics, and nothing else
    done. When a required option of the meter is absent, the line is "Not
    all argument options passed in.", whichever option it is; for the
    reflector without options it is "Required option not passed in.". *)
Theorem refused_command_line CL_GREEN RESET argv fuel p :
  ((forall mtrip, fst (argument_parser argv p) <> value (Some mtrip)) ->
   exists msg,
     run CL_GREEN RESET argv fuel p =
       (exited Libc.EXIT_FAILURE, complained msg p)
     /\ diagnostic msg /\ Libc.EXIT_FAILURE <> 0)
  /\ (forall c,
        (4 <= length argv)%nat ->
        nth 1 argv EmptyString = "meter" ->
        meter_options_only
          (Getopt.scan (posixly_correct p) "h:p:s:t:" (skipn 2 argv)) ->
        In c ["h"; "p"; "s"; "t"]%char ->
        (forall optarg,
            ~ In (Getopt.opt c optarg)
                 (Getopt.scan (posixly_correct p) "h:p:s:t:" (skipn 2 argv))) ->
        run CL_GREEN RESET argv fuel p =
          (exited Libc.EXIT_FAILURE,
           complained "Not all argument options passed in." p))
  /\ ((4 <= length argv)%nat ->
      nth 1 argv EmptyString = "reflect" ->
      Getopt.scan (posixly_correct p) "p:" (skipn 2 argv) = [] ->
      run CL_GREEN RESET argv fuel p =
        (exited Libc.EXIT_FAILURE,
         complained "Required option not passed in." p)).
Proof.
  split; [|split].
  - intros Hrefused.
    destruct (run_refused CL_GREEN RESET argv fuel p Hrefused) as (msg & Heq & Hd).
    exists msg. repeat split; [exact Heq|exact Hd|discriminate].
  - intros c Hargc Hmode Honly Hc Habsent.
    apply run_rejected, (meter_branch_absent argv p c); try assumption.
    + apply Z.ltb_ge. lia.
    + rewrite Hmode. reflexivity.
  - intros Hargc Hmode Hnone.
    apply run_rejected. unfold argument_parser.
    replace (Z.of_nat (length argv) <? 4) with false
      by (symmetry; apply Z.ltb_ge; lia).
    rewrite Hmode. cbn [String.eqb Ascii.eqb Bool.eqb].
    unfold bind at 1, getopt. rewrite Hnone. reflexivity.
Qed.

(** The hypotheses about an absent option hold for [without_t] and the
    option [t]. *)
Lemma without_t_lacks_t :
  (4 <= length without_t)%nat
  /\ nth 1 without_t EmptyString = "meter"
  /\ meter_options_only
       (Getopt.scan (posixly_correct idle) "h:p:s:t:" (skipn 2 without_t))
  /\ (forall optarg,
         ~ In (Getopt.opt "t" optarg)
              (Getopt.scan (posixly_correct idle) "h:p:s:t:"
                 (skipn 2 without_t))).
Proof.
  split; [cbn; lia|]. split; [reflexivity|]. split.
  - repeat constructor; eexists; eexists; (split; [reflexivity|]); cbn; tauto.
  - intros optarg H. cbn in H.
    repeat (destruct H as [H|H]; [discriminate H|]). exact H.
Qed.

Lemma refused_command_line_witness :
  (forall mtrip, fst (argument_parser without_t idle) <> value (Some mtrip))
  /\ (exists msg,
        run green reset without_t 7 idle =
          (exited Libc.EXIT_FAILURE, complained msg idle)
        /\ diagnostic msg /\ Libc.EXIT_FAILURE <> 0)
  /\ run green reset without_t 7 idle =
     (exited Libc.EXIT_FAILURE,
      complained "Not all argument options passed in." idle).
Proof.
  assert (H : forall mtrip,
             fst (argument_parser without_t idle) <> value (Some mtrip))
    by (intros mtrip; vm_compute; discriminate).
  split; [exact H|]. split.
  - exact (proj1 (refused_command_line green reset without_t 7 idle) H).
  - exact (proj1 (proj2 (refused_command_line green reset without_t 7 idle))
             "t"%char
             (proj1 without_t_lacks_t)
             (proj1 (proj2 without_t_lacks_t))
             (proj1 (proj2 (proj2 without_t_lacks_t)))
             (or_intror (or_intror (or_intror (or_introl eq_refl))))
             (proj2 (proj2 (proj2 without_t_lacks_t)))).
Defined.

(** C5 fails as stated: without [-t] and without [-s] the diagnostic is the
    same line, which names neither; and with values that are no numbers the
    command line is accepted, nothing is printed and nothing exits. *)
Lemma absent_option_is_not_named :
  run green reset without_t 7 idle =
    (exited 1, complained "Not all argument options passed in." idle)
  /\ run green reset without_s 7 idle =
     (exited 1, complained "Not all argument options passed in." idle)
  /\ argument_parser nonsense_argv idle =
     (value (Some (Meter "localhost" 0 0 (Libc.atof "soon"))), idle).
Proof. repeat split; vm_compute; reflexivity. Qed.

(** C4, as the code has it. An accepted meter configuration was given all
    four options: its probe size is [atoi] of the text after [-s] as a
    [size_t], a value from 0 on, and its duration is [atof] of the text
    after [-t]; neither is compared with anything. Whatever texts follow
    [-s] and [-t], the configuration is accepted. A command line that yields
    no configuration ends the process before any call on the socket. *)
Theorem argument_parser_checks_presence_only :
  (forall argv p host port n time,
      fst (argument_parser argv p) = value (Some (Meter host port n time)) ->
      let rets := Getopt.scan (posixly_correct p) "h:p:s:t:" (skipn 2 argv) in
      0 <= n < 2 ^ 64
      /\ (exists optarg, In (Getopt.opt "s" optarg) rets /\ n = size_of optarg)
      /\ (exists optarg, In (Getopt.opt "t" optarg) rets
                         /\ time = Libc.atof optarg)
      /\ (exists optarg, In (Getopt.opt "p" optarg) rets /\ port = port_of optarg)
      /\ In (Getopt.opt "h" host) rets)
  /\ (forall host optarg_p optarg_s optarg_t p,
         argument_parser
           ["ipk-mtrip"; "meter"; "-h"; host; "-p"; optarg_p;
            "-s"; optarg_s; "-t"; optarg_t] p =
         (value (Some (Meter host (port_of optarg_p) (size_of optarg_s)
                          (Libc.atof optarg_t))), p))
  /\ (forall CL_GREEN RESET argv fuel p,
         (forall mtrip, fst (argument_parser argv p) <> value (Some mtrip)) ->
         fst (run CL_GREEN RESET argv fuel p) = exited Libc.EXIT_FAILURE
         /\ socket (snd (run CL_GREEN RESET argv fuel p)) = socket p).
Proof.
  split; [|split].
  - intros argv p host port n time Hacc rets.
    destruct (Z.of_nat (length argv) <? 4) eqn:Hargc.
    { unfold argument_parser in Hacc. rewrite Hargc in Hacc.
      discriminate Hacc. }
    destruct (String.eqb (nth 1 argv EmptyString) "meter") eqn:Hmeter.
    + destruct (meter_branch argv p Hargc Hmeter)
        as [(h & a2 & a3 & a4 & Heq & Hi1 & Hi2 & Hi3 & Hi4)
           |[(l & _ & _ & _ & Heq)|(msg & Heq & _)]];
        rewrite Heq in Hacc; try discriminate Hacc.
      injection Hacc as <- <- <- <-. fold rets in Hi1, Hi2, Hi3, Hi4.
      split; [apply size_of_range|].
      split; [exists a3; split; [exact Hi3|reflexivity]|].
      split; [exists a4; split; [exact Hi4|reflexivity]|].
      split; [exists a2; split; [exact Hi2|reflexivity]|exact Hi1].
    + destruct (String.eqb (nth 1 argv EmptyString) "reflect") eqn:Hreflect.
      * destruct (reflect_branch argv p Hargc Hmeter Hreflect)
          as [(m & Heq & _)|[Heq|(msg & Heq & _)]];
          rewrite Heq in Hacc; discriminate Hacc.
      * unfold argument_parser in Hacc.
        rewrite Hargc, Hmeter, Hreflect in Hacc. discriminate Hacc.
  - intros host optarg_p optarg_s optarg_t p. reflexivity.
  - intros CL_GREEN RESET argv fuel p Hrefused.
    destruct (run_refused CL_GREEN RESET argv fuel p Hrefused) as (msg & -> & _).
    split; reflexivity.
Qed.

(** C4 fails as stated: with [-s 0 -t 0] the configuration is accepted, the
    probe size is 0 and the duration is [atof] of "0"; the meter goes on to
    its socket and sends a probe of no bytes. *)
Lemma zero_size_and_duration_accepted :
  argument_parser zero_argv idle =
    (value (Some (Meter "localhost" 9000 0 (Libc.atof "0"))), idle)
  /\ socket (snd (run green reset zero_argv 7 idle)) =
     [connected "localhost" 9000; sent []].
Proof. split; vm_compute; reflexivity. Qed.

(** * Further properties *)

(** ** What [getopt] returns *)

Lemma scan_cons pc optstring a rest :
  Getopt.scan pc optstring (a :: rest) =
  match a with
  | String "-" (String c0 cs0) =>
      if (Ascii.eqb c0 "-" && String.eqb cs0 EmptyString)%bool then []
      else cluster optstring (Getopt.scan pc optstring rest)
             match rest with
             | [] => None
             | optarg :: rest' => Some (optarg, Getopt.scan pc optstring rest')
             end
             (String c0 cs0)
  | _ => if pc then [] else Getopt.scan pc optstring rest
  end.
Proof.
  destruct a as [|a0 [|c0 cs0]]; try reflexivity.
  destruct a0 as [[] [] [] [] [] [] [] []]; try reflexivity.
  cbn [Getopt.scan].
  destruct (Ascii.eqb c0 "-" && String.eqb cs0 EmptyString)%bool;
    [reflexivity|].
  cbn [cluster].
  destruct (Getopt.declared c0 optstring) as [[|]|].
  - destruct cs0; [|reflexivity]. destruct rest; reflexivity.
  - f_equal. generalize cs0 as chars.
    induction chars as [|c cs IH]; [reflexivity|].
    cbn [cluster]. destruct (Getopt.declared c optstring) as [[|]|].
    + destruct cs; [|reflexivity]. destruct rest; reflexivity.
    + f_equal. exact IH.
    + f_equal. exact IH.
  - f_equal. generalize cs0 as chars.
    induction chars as [|c cs IH]; [reflexivity|].
    cbn [cluster]. destruct (Getopt.declared c optstring) as [[|]|].
    + destruct cs; [|reflexivity]. destruct rest; reflexivity.
    + f_equal. exact IH.
    + f_equal. exact IH.
Qed.

Lemma cluster_declared optstring after with_arg chars :
  declared_only optstring after ->
  match with_arg with
  | Some (_, after') => declared_only optstring after'
  | None => True
  end ->
  declared_only optstring (cluster optstring after with_arg chars).
Proof.
  intros Hafter Harg. induction chars as [|c cs IH]; [exact Hafter|].
  cbn [cluster]. destruct (Getopt.declared c optstring) as [[|]|] eqn:E.
  - destruct cs.
    + destruct with_arg as [[optarg after']|].
      * constructor; [rewrite E; discriminate|exact Harg].
      * constructor; [exact I|constructor].
    + constructor; [rewrite E; discriminate|exact Hafter].
  - constructor; [rewrite E; discriminate|exact IH].
  - constructor; [exact I|exact IH].
Qed.

Lemma scan_declared pc optstring argv :
  declared_only optstring (Getopt.scan pc optstring argv).
Proof.
  assert (H : forall n argv, (length argv <= n)%nat ->
                             declared_only optstring (Getopt.scan pc optstring argv)).
  { clear argv. induction n as [|n IH]; intros [|a rest] Hlen;
      try (constructor); try (cbn in Hlen; lia).
    rewrite scan_cons. cbn [length] in Hlen.
    assert (Hrest : declared_only optstring (Getopt.scan pc optstring rest))
      by (apply IH; lia).
    destruct a as [|a0 [|c0 cs0]].
    - destruct pc; [constructor|exact Hrest].
    - destruct a0 as [[] [] [] [] [] [] [] []];
        (destruct pc; [constructor|exact Hrest]).
    - destruct a0 as [[] [] [] [] [] [] [] []];
        try (destruct pc; [constructor|exact Hrest]).
      destruct (Ascii.eqb c0 "-" && String.eqb cs0 EmptyString)%bool;
        [constructor|].
      apply cluster_declared; [exact Hrest|].
      destruct rest as [|optarg rest']; [exact I|]. apply IH. cbn in Hlen. lia. }
  apply (H (length argv)). lia.
Qed.

Lemma declared_meter c b :
  Getopt.declared c "h:p:s:t:" = Some b -> In c ["h"; "p"; "s"; "t"]%char.
Proof.
  cbn [Getopt.declared].
  destruct (Ascii.eqb_spec "h" c) as [<-|_]; [cbn; tauto|]. cbn [andb].
  destruct (Ascii.eqb_spec ":" c) as [<-|_]; [cbn; discriminate|]. cbn [andb].
  destruct (Ascii.eqb_spec "p" c) as [<-|_]; [cbn; tauto|]. cbn [andb].
  destruct (Ascii.eqb_spec "s" c) as [<-|_]; [cbn; tauto|]. cbn [andb].
  destruct (Ascii.eqb_spec "t" c) as [<-|_]; [cbn; tauto|]. cbn [andb].
  discriminate.
Qed.

Lemma declared_reflect c b : Getopt.declared c "p:" = Some b -> c = "p"%char.
Proof.
  cbn [Getopt.declared].
  destruct (Ascii.eqb_spec "p" c) as [<-|_]; [reflexivity|]. cbn [andb].
  destruct (Ascii.eqb_spec ":" c) as [<-|_]; [cbn; discriminate|]. cbn [andb].
  discriminate.
Qed.

(** What [getopt] returns for the meter, up to its first '?'. *)
Lemma meter_rets_split rets :
  declared_only "h:p:s:t:" rets ->
  meter_options_only rets
  \/ exists good optopt rest,
       rets = good ++ Getopt.unknown optopt :: rest /\ meter_options_only good.
Proof.
  induction 1 as [|[c optarg|optopt] rets Hr _ IH].
  - left. constructor.
  - assert (Hc : In c ["h"; "p"; "s"; "t"]%char).
    { destruct (Getopt.declared c "h:p:s:t:") as [b|] eqn:E;
        [exact (declared_meter c b E)|contradiction]. }
    destruct IH as [IH|(good & optopt & rest & -> & Hgood)].
    + left. constructor; [|exact IH]. eauto.
    + right. exists (Getopt.opt c optarg :: good), optopt, rest.
      split; [reflexivity|]. constructor; [|exact Hgood]. eauto.
  - right. exists [], optopt, rets. split; [reflexivity|constructor].
Qed.

(** The loop of the meter branch ends at the first '?': what follows is not
    looked at. *)
Lemma meter_getopt_loop_first_unknown good optopt rest :
  meter_options_only good -> forall l p,
  meter_getopt_loop (good ++ Getopt.unknown optopt :: rest) l p =
  (halt (exited 1), snd (meter_getopt_error optopt p)).
Proof.
  induction 1 as [|r good (c & optarg & -> & Hc) _ IH]; intros l p.
  - cbn [app meter_getopt_loop]. unfold bind.
    destruct (meter_getopt_error_diagnostic optopt p) as (msg & -> & _).
    reflexivity.
  - cbn [app meter_getopt_loop].
    destruct Hc as [<-|[<-|[<-|[<-|[]]]]]; cbn; apply IH.
Qed.

Lemma append_cancel_l (s t u : string) : (s ++ t = s ++ u)%string -> t = u.
Proof.
  induction s as [|c s IH]; cbn; intros H; [exact H|].
  injection H. exact IH.
Qed.

Lemma append_grows (s t : string) : (s ++ t)%string = s -> t = EmptyString.
Proof.
  intros H. apply (append_cancel_l s). now rewrite append_nil_r.
Qed.

Lemma reflect_rets_split rets :
  declared_only "p:" rets ->
  reflect_options_only rets
  \/ exists good optopt rest,
       rets = good ++ Getopt.unknown optopt :: rest /\ reflect_options_only good.
Proof.
  induction 1 as [|[c optarg|optopt] rets Hr _ IH].
  - left. constructor.
  - assert (Hc : c = "p"%char).
    { destruct (Getopt.declared c "p:") as [b|] eqn:E;
        [exact (declared_reflect c b E)|contradiction]. }
    subst c.
    destruct IH as [IH|(good & optopt & rest & -> & Hgood)].
    + left. constructor; [|exact IH]. eauto.
    + right. exists (Getopt.opt "p" optarg :: good), optopt, rest.
      split; [reflexivity|]. constructor; [|exact Hgood]. eauto.
  - right. exists [], optopt, rets. split; [reflexivity|constructor].
Qed.

Lemma reflect_getopt_loop_first_unknown good optopt rest :
  reflect_options_only good -> forall port p,
  reflect_getopt_loop (good ++ Getopt.unknown optopt :: rest) port p =
  (halt (exited 1), snd (reflect_getopt_error optopt p)).
Proof.
  induction 1 as [|r good (optarg & ->) _ IH]; intros port p.
  - cbn [app reflect_getopt_loop]. unfold bind.
    destruct (reflect_getopt_error_diagnostic optopt p) as (msg & -> & _).
    reflexivity.
  - cbn [app reflect_getopt_loop]. cbn. apply IH.
Qed.

Lemma reflect_getopt_loop_total rets :
  reflect_options_only rets -> forall port p,
  exists port', reflect_getopt_loop rets port p = (value port', p).
Proof.
  induction 1 as [|r rets (optarg & ->) _ IH]; intros port p.
  - exists port. reflexivity.
  - cbn [reflect_getopt_loop]. cbn. apply IH.
Qed.

Lemma meter_getopt_error_named optopt p :
  exists msg,
    snd (meter_getopt_error optopt p) = complained msg p
    /\ diagnostic msg /\ msg <> "uknown getopt() error".
Proof.
  unfold meter_getopt_error.
  destruct (_ || _)%bool; [|destruct (Libc.isprint optopt)].
  - exists ("Option -" ++ char optopt ++ " requires an argument.")%string.
    split; [reflexivity|]. split; [constructor|discriminate].
  - exists ("Uknown option '-" ++ char optopt ++ "'")%string.
    split; [reflexivity|]. split; [constructor|discriminate].
  - exists "Unknown option character. ".
    split; [reflexivity|]. split; [constructor|discriminate].
Qed.

Lemma reflect_getopt_error_named optopt p :
  exists msg,
    snd (reflect_getopt_error optopt p) = complained msg p
    /\ diagnostic msg /\ msg <> "uknown getopt() error".
Proof.
  unfold reflect_getopt_error.
  destruct (Ascii.eqb optopt "p"); [|destruct (Libc.isprint optopt)].
  - exists ("Option -" ++ char "p" ++ " requires an argument.")%string.
    split; [reflexivity|]. split; [constructor|discriminate].
  - exists ("Uknown option '-" ++ char optopt ++ "'")%string.
    split; [reflexivity|]. split; [constructor|discriminate].
  - exists "Unknown option character. ".
    split; [reflexivity|]. split; [constructor|discriminate].
Qed.

(** X1. [argument_parser] leaves the process as it was or adds exactly one
    diagnostic to standard error, and that diagnostic is never "uknown
    getopt() error": [getopt] returns only option characters of its option
    string or '?', so the [default] branches of both loops are never
    taken. *)
Theorem getopt_error_is_never_printed argv p :
  snd (argument_parser argv p) = p
  \/ exists msg,
       snd (argument_parser argv p) = complained msg p
       /\ diagnostic msg /\ msg <> "uknown getopt() error".
Proof.
  remember (argument_parser argv p) as R eqn:ER.
  unfold argument_parser in ER.
  destruct (Z.of_nat (length argv) <? 4).
  { right. subst R. eexists. split; [reflexivity|].
    split; [constructor|discriminate]. }
  destruct (String.eqb (nth 1 argv EmptyString) "meter").
  { unfold bind at 1, getopt in ER. cbv beta iota in ER.
    unfold bind at 1 in ER.
    destruct (meter_rets_split _
                (scan_declared (posixly_correct p) "h:p:s:t:" (skipn 2 argv)))
      as [Honly|(good & optopt & rest & Hsplit & Hgood)].
    - destruct (meter_getopt_loop_total _ Honly
                  (mkMeterLocals None None None None) p) as (l & Hl).
      rewrite Hl in ER. cbv beta iota in ER.
      destruct l as [[h|] [pt|] [n|] [t|]];
        cbn [host_name port probe_size measurment_time] in ER; subst R;
        try (left; reflexivity);
        right; eexists; (split; [reflexivity|]);
        (split; [constructor|discriminate]).
    - rewrite Hsplit, (meter_getopt_loop_first_unknown _ _ _ Hgood) in ER.
      cbv beta iota in ER. subst R. cbn [snd].
      right. apply meter_getopt_error_named. }
  destruct (String.eqb (nth 1 argv EmptyString) "reflect").
  - unfold bind at 1, getopt in ER. cbv beta iota in ER.
    unfold bind at 1 in ER.
    destruct (reflect_rets_split _
                (scan_declared (posixly_correct p) "p:" (skipn 2 argv)))
      as [Honly|(good & optopt & rest & Hsplit & Hgood)].
    + destruct (reflect_getopt_loop_total _ Honly None p) as (port' & Hl).
      rewrite Hl in ER. cbv beta iota in ER.
      destruct port' as [n|]; subst R; [left; reflexivity|].
      right. eexists. split; [reflexivity|].
      split; [constructor|discriminate].
    + rewrite Hsplit, (reflect_getopt_loop_first_unknown _ _ _ Hgood) in ER.
      cbv beta iota in ER. subst R. cbn [snd].
      right. apply reflect_getopt_error_named.
  - right. subst R. eexists. split; [reflexivity|].
    split; [constructor|discriminate].
Qed.

(** ** More on the command line *)

Lemma meter_getopt_error_message optopt p :
  exists msg,
    snd (meter_getopt_error optopt p) = complained msg p
    /\ (In optopt ["h"; "p"; "s"; "t"]%char ->
        msg = ("Option -" ++ char optopt ++ " requires an argument.")%string)
    /\ (~ In optopt ["h"; "p"; "s"; "t"]%char -> Libc.isprint optopt = true ->
        msg = ("Uknown option '-" ++ char optopt ++ "'")%string)
    /\ (~ In optopt ["h"; "p"; "s"; "t"]%char -> Libc.isprint optopt = false ->
        msg = "Unknown option character. ").
Proof.
  unfold meter_getopt_error.
  destruct (Ascii.eqb_spec optopt "h") as [->|Hh].
  { exists ("Option -" ++ char "h" ++ " requires an argument.")%string.
    split; [reflexivity|]. split; [reflexivity|].
    split; intros H; exfalso; apply H; cbn; tauto. }
  destruct (Ascii.eqb_spec optopt "p") as [->|Hp].
  { exists ("Option -" ++ char "p" ++ " requires an argument.")%string.
    split; [reflexivity|]. split; [reflexivity|].
    split; intros H; exfalso; apply H; cbn; tauto. }
  destruct (Ascii.eqb_spec optopt "s") as [->|Hs].
  { exists ("Option -" ++ char "s" ++ " requires an argument.")%string.
    split; [reflexivity|]. split; [reflexivity|].
    split; intros H; exfalso; apply H; cbn; tauto. }
  destruct (Ascii.eqb_spec optopt "t") as [->|Ht].
  { exists ("Option -" ++ char "t" ++ " requires an argument.")%string.
    split; [reflexivity|]. split; [reflexivity|].
    split; intros H; exfalso; apply H; cbn; tauto. }
  assert (Hnot : ~ In optopt ["h"; "p"; "s"; "t"]%char)
    by (cbn; intros [E|[E|[E|[E|[]]]]]; congruence).
  cbn [orb]. destruct (Libc.isprint optopt).
  - exists ("Uknown option '-" ++ char optopt ++ "'")%string.
    split; [reflexivity|]. split; [contradiction|].
    split; [reflexivity|discriminate].
  - exists "Unknown option character. ".
    split; [reflexivity|]. split; [contradiction|].
    split; [discriminate|reflexivity].
Qed.

(** X2. In meter mode the first '?' that [getopt] returns ends the process
    with status 1, whatever follows and whichever required options are
    absent. The diagnostic names the option character: "Option -c requires
    an argument." for one of h, p, s, t (it was the last element of the
    command line), "Uknown option '-c'" for another printable character. *)
Theorem first_bad_option_is_named CL_GREEN RESET argv fuel p good optopt rest :
  (4 <= length argv)%nat ->
  nth 1 argv EmptyString = "meter" ->
  Getopt.scan (posixly_correct p) "h:p:s:t:" (skipn 2 argv) =
    good ++ Getopt.unknown optopt :: rest ->
  meter_options_only good ->
  exists msg,
    run CL_GREEN RESET argv fuel p = (exited 1, complained msg p)
    /\ (In optopt ["h"; "p"; "s"; "t"]%char ->
        msg = ("Option -" ++ char optopt ++ " requires an argument.")%string)
    /\ (~ In optopt ["h"; "p"; "s"; "t"]%char -> Libc.isprint optopt = true ->
        msg = ("Uknown option '-" ++ char optopt ++ "'")%string)
    /\ (~ In optopt ["h"; "p"; "s"; "t"]%char -> Libc.isprint optopt = false ->
        msg = "Unknown option character. ").
Proof.
  intros Hargc Hmode Hsplit Hgood.
  destruct (meter_getopt_error_message optopt p) as (msg & Hmsg & H).
  exists msg. split; [|exact H].
  apply run_exited. rewrite <- Hmsg.
  unfold argument_parser.
  replace (Z.of_nat (length argv) <? 4) with false
    by (symmetry; apply Z.ltb_ge; lia).
  rewrite Hmode. cbn [String.eqb Ascii.eqb Bool.eqb].
  unfold bind at 1, getopt. rewrite Hsplit. unfold bind at 1.
  rewrite (meter_getopt_loop_first_unknown _ _ _ Hgood). reflexivity.
Qed.

Lemma first_bad_option_is_named_witness :
  exists msg,
    run green reset lacks_argument_argv 7 idle = (exited 1, complained msg idle)
    /\ (In "t"%char ["h"; "p"; "s"; "t"]%char ->
        msg = ("Option -" ++ char "t" ++ " requires an argument.")%string)
    /\ (~ In "t"%char ["h"; "p"; "s"; "t"]%char -> Libc.isprint "t" = true ->
        msg = ("Uknown option '-" ++ char "t" ++ "'")%string)
    /\ (~ In "t"%char ["h"; "p"; "s"; "t"]%char -> Libc.isprint "t" = false ->
        msg = "Unknown option character. ").
Proof.
  apply (first_bad_option_is_named green reset lacks_argument_argv 7 idle
           [Getopt.opt "h" "localhost"] "t"%char []).
  - cbn. lia.
  - reflexivity.
  - reflexivity.
  - constructor; [|constructor].
    exists "h"%char, "localhost". split; [reflexivity|]. cbn. tauto.
Defined.

(** The loop over a concatenation is the loop over its parts, one after the
    other. *)
Lemma meter_getopt_loop_app rets1 rets2 : forall l p,
  meter_getopt_loop (rets1 ++ rets2) l p =
  match meter_getopt_loop rets1 l p with
  | (value l1, p1) => meter_getopt_loop rets2 l1 p1
  | (halt o, p1) => (halt o, p1)
  end.
Proof.
  induction rets1 as [|[c optarg|optopt] rets1 IH]; intros l p.
  - reflexivity.
  - cbn [app meter_getopt_loop].
    destruct (Ascii.eqb c "h"); [apply IH|].
    destruct (Ascii.eqb c "p"); [apply IH|].
    destruct (Ascii.eqb c "s"); [apply IH|].
    destruct (Ascii.eqb c "t"); [apply IH|]. reflexivity.
  - cbn [app meter_getopt_loop]. unfold bind.
    destruct (meter_getopt_error optopt p) as [[[]|o] q]; reflexivity.
Qed.

(** A local is left alone by options other than its own. *)
Lemma meter_getopt_loop_keeps rets : forall l p l' p',
  meter_getopt_loop rets l p = (value l', p') ->
  (without "h" rets -> host_name l' = host_name l)
  /\ (without "p" rets -> port l' = port l)
  /\ (without "s" rets -> probe_size l' = probe_size l)
  /\ (without "t" rets -> measurment_time l' = measurment_time l).
Proof.
  induction rets as [|[c optarg|optopt] rets IH]; intros l p l' p' H.
  - injection H as <- _. repeat split; reflexivity.
  - cbn [meter_getopt_loop] in H.
    assert (Hlater : forall c', without c' (Getopt.opt c optarg :: rets) ->
                                without c' rets)
      by (intros c' Hw a Hin; apply (Hw a); right; exact Hin).
    assert (Hnow : forall c', without c' (Getopt.opt c optarg :: rets) -> c' <> c)
      by (intros c' Hw ->; apply (Hw optarg); left; reflexivity).
    destruct (Ascii.eqb_spec c "h") as [->|_];
      [|destruct (Ascii.eqb_spec c "p") as [->|_];
        [|destruct (Ascii.eqb_spec c "s") as [->|_];
          [|destruct (Ascii.eqb_spec c "t") as [->|_]]]];
      try (destruct (IH _ _ _ _ H) as (H1 & H2 & H3 & H4);
           cbn [host_name port probe_size measurment_time] in H1, H2, H3, H4;
           repeat split; intros Hw;
           first [ exfalso; apply (Hnow _ Hw); reflexivity
                 | apply H1, Hlater, Hw | apply H2, Hlater, Hw
                 | apply H3, Hlater, Hw | apply H4, Hlater, Hw ]).
    discriminate H.
  - cbn [meter_getopt_loop] in H. unfold bind in H.
    destruct (meter_getopt_error optopt p) as [[[]|o] q]; discriminate H.
Qed.

(** X3. When an option of the meter is given more than once, the last
    occurrence sets the member of the accepted configuration. *)
Theorem last_occurrence_wins argv p host m_port n time before c optarg later :
  fst (argument_parser argv p) = value (Some (Meter host m_port n time)) ->
  Getopt.scan (posixly_correct p) "h:p:s:t:" (skipn 2 argv) =
    before ++ Getopt.opt c optarg :: later ->
  without c later ->
  (c = "h"%char -> host = optarg)
  /\ (c = "p"%char -> m_port = port_of optarg)
  /\ (c = "s"%char -> n = size_of optarg)
  /\ (c = "t"%char -> time = Libc.atof optarg).
Proof.
  intros Hacc Hsplit Hlater.
  unfold argument_parser in Hacc.
  destruct (Z.of_nat (length argv) <? 4); [discriminate Hacc|].
  destruct (String.eqb (nth 1 argv EmptyString) "meter").
  - unfold bind at 1, getopt in Hacc. cbv beta iota in Hacc.
    rewrite Hsplit in Hacc. unfold bind at 1 in Hacc.
    rewrite meter_getopt_loop_app in Hacc.
    destruct (meter_getopt_loop before _ p) as [[l1|o] p1];
      [|discriminate Hacc].
    destruct (meter_getopt_loop (Getopt.opt c optarg :: later) l1 p1)
      as [[l|o] q] eqn:Hl; [|discriminate Hacc].
    cbv beta iota in Hacc.
    destruct l as [[h|] [pt|] [n0|] [t|]];
      cbn [host_name port probe_size measurment_time] in Hacc;
      try discriminate Hacc.
    injection Hacc as <- <- <- <-.
    repeat split; intros ->; cbn in Hl;
      destruct (meter_getopt_loop_keeps _ _ _ _ _ Hl) as (H1 & H2 & H3 & H4);
      cbn [host_name port probe_size measurment_time] in H1, H2, H3, H4.
    + specialize (H1 Hlater). now injection H1.
    + specialize (H2 Hlater). now injection H2.
    + specialize (H3 Hlater). now injection H3.
    + specialize (H4 Hlater). now injection H4.
  - destruct (String.eqb (nth 1 argv EmptyString) "reflect");
      [|discriminate Hacc].
    unfold bind at 1, getopt in Hacc. cbv beta iota in Hacc.
    unfold bind at 1 in Hacc.
    destruct (reflect_getopt_loop _ None p) as [[[m|]|o] q];
      discriminate Hacc.
Qed.

Lemma last_occurrence_wins_witness :
  fst (argument_parser twice_s_argv idle) =
    value (Some (Meter "localhost" 9000 128 (Libc.atof "2")))
  /\ ("s"%char = "s"%char -> 128 = size_of "128").
Proof.
  assert (H : fst (argument_parser twice_s_argv idle) =
              value (Some (Meter "localhost" 9000 128 (Libc.atof "2"))))
    by reflexivity.
  split; [exact H|].
  refine (proj1 (proj2 (proj2
    (last_occurrence_wins twice_s_argv idle "localhost" 9000 128 (Libc.atof "2")
       [Getopt.opt "h" "localhost"; Getopt.opt "p" "9000"; Getopt.opt "s" "64"]
       "s"%char "128" [Getopt.opt "t" "2"] H eq_refl _)))).
  intros a [E|[]]. discriminate E.
Defined.

(** X4. In the command line of the meter a value attached to its flag
    ([-s64]) is the same as the value in the next element ([-s 64]), as long
    as the value is not empty. *)
Theorem attached_values_are_accepted prog host optarg_p optarg_s optarg_t p :
  host <> EmptyString -> optarg_p <> EmptyString ->
  optarg_s <> EmptyString -> optarg_t <> EmptyString ->
  argument_parser
    [prog; "meter"; ("-h" ++ host)%string; ("-p" ++ optarg_p)%string;
     ("-s" ++ optarg_s)%string; ("-t" ++ optarg_t)%string] p =
  argument_parser
    [prog; "meter"; "-h"; host; "-p"; optarg_p; "-s"; optarg_s;
     "-t"; optarg_t] p
  /\ argument_parser
       [prog; "meter"; "-h"; host; "-p"; optarg_p; "-s"; optarg_s;
        "-t"; optarg_t] p =
     (value (Some (Meter host (port_of optarg_p) (size_of optarg_s)
                      (Libc.atof optarg_t))), p).
Proof.
  intros Hh Hp Hs Ht.
  destruct host as [|h0 h]; [contradiction|].
  destruct optarg_p as [|p0 pt]; [contradiction|].
  destruct optarg_s as [|s0 s]; [contradiction|].
  destruct optarg_t as [|t0 t]; [contradiction|].
  split; reflexivity.
Qed.

Lemma attached_values_are_accepted_witness :
  argument_parser
    ["ipk-mtrip"; "meter"; ("-h" ++ "localhost")%string; ("-p" ++ "9000")%string;
     ("-s" ++ "64")%string; ("-t" ++ "2")%string] idle =
  argument_parser
    ["ipk-mtrip"; "meter"; "-h"; "localhost"; "-p"; "9000"; "-s"; "64";
     "-t"; "2"] idle
  /\ argument_parser
       ["ipk-mtrip"; "meter"; "-h"; "localhost"; "-p"; "9000"; "-s"; "64";
        "-t"; "2"] idle =
     (value (Some (Meter "localhost" (port_of "9000") (size_of "64")
                      (Libc.atof "2"))), idle).
Proof.
  apply (attached_values_are_accepted "ipk-mtrip" "localhost" "9000" "64" "2"
           idle); discriminate.
Defined.

Lemma atoi_range nptr : - 2 ^ 31 <= Libc.atoi nptr < 2 ^ 31.
Proof.
  unfold Libc.atoi, Libc.to_int.
  pose proof (Z.mod_pos_bound (Libc.strtol10 nptr + 2 ^ 31) (2 ^ 32)). lia.
Qed.

(** X5. The numbers of the meter are converted, not checked. The port is
    [atoi] of the text after [-p] modulo 65536 (the local is an [unsigned
    short]); the probe size is [atoi] of the text after [-s] as a [size_t]:
    the number itself when it is not negative, and 2^64 more than the number
    when it is, at least 2^64 - 2^31 bytes. *)
Theorem meter_numbers_are_converted prog host optarg_p optarg_s optarg_t p :
  exists m_port m_probe_size,
    argument_parser
      [prog; "meter"; "-h"; host; "-p"; optarg_p; "-s"; optarg_s;
       "-t"; optarg_t] p =
    (value (Some (Meter host m_port m_probe_size (Libc.atof optarg_t))), p)
    /\ m_port = Libc.atoi optarg_p mod 65536
    /\ m_probe_size = (if Libc.atoi optarg_s <? 0
                       then 2 ^ 64 + Libc.atoi optarg_s
                       else Libc.atoi optarg_s)
    /\ (Libc.atoi optarg_s < 0 -> 2 ^ 64 - 2 ^ 31 <= m_probe_size).
Proof.
  exists (port_of optarg_p), (size_of optarg_s).
  split; [reflexivity|].
  pose proof (atoi_range optarg_s) as Hs.
  assert (Hsize : size_of optarg_s =
                  if Libc.atoi optarg_s <? 0 then 2 ^ 64 + Libc.atoi optarg_s
                  else Libc.atoi optarg_s).
  { unfold size_of, Libc.to_size_t.
    destruct (Libc.atoi optarg_s <? 0) eqn:E.
    - apply Z.ltb_lt in E.
      symmetry. apply (Z.mod_unique _ _ (-1)); lia.
    - apply Z.ltb_ge in E. apply Z.mod_small. lia. }
  split; [|split; [exact Hsize|]].
  - unfold port_of, Libc.to_unsigned_short, Libc.to_unsigned_int.
    apply Z.mod_mod_divide. exists 65536. reflexivity.
  - intros Hneg. rewrite Hsize.
    replace (Libc.atoi optarg_s <? 0) with true
      by (symmetry; apply Z.ltb_lt; exact Hneg).
    lia.
Qed.

(** The conversions at work: a port above 65535 wraps, a negative size
    becomes a huge one, a text that is no number counts as 0. *)
Example conversions :
  argument_parser
    ["ipk-mtrip"; "meter"; "-h"; "localhost"; "-p"; "70000"; "-s"; "-1";
     "-t"; "soon"] idle =
  (value (Some (Meter "localhost" 4464 18446744073709551615
                   (Libc.atof "soon"))), idle)
  /\ Libc.atoi "many" = 0.
Proof. split; reflexivity. Qed.

(** X6. The reflector takes any text after [-p]: its port is [atoi] of the
    text modulo 2^32, not compared with the range of ports, and the server
    is set up on that number before anything else happens on the socket. *)
Theorem reflector_port_is_converted CL_GREEN RESET prog optarg fuel p :
  let m_port := Libc.atoi optarg mod 2 ^ 32 in
  argument_parser [prog; "reflect"; "-p"; optarg] p =
    (value (Some (Reflector m_port)), p)
  /\ 0 <= m_port < 2 ^ 32
  /\ exists ws,
       socket (snd (run CL_GREEN RESET [prog; "reflect"; "-p"; optarg] fuel p)) =
       socket p ++ bound m_port :: ws.
Proof.
  intros m_port.
  assert (Hacc : argument_parser [prog; "reflect"; "-p"; optarg] p =
                 (value (Some (Reflector m_port)), p)) by reflexivity.
  split; [exact Hacc|]. split; [apply Z.mod_pos_bound; lia|].
  rewrite (run_accepted _ _ _ _ _ _ Hacc). cbn [init].
  destruct (Reflector_init_spec CL_GREEN RESET m_port fuel p)
    as (k & o & tail & -> & _).
  eexists. reflexivity.
Qed.

(** X7. With at least 4 entries in [argv] and a mode word that is neither
    "meter" nor "reflect", letter for letter, the process prints "Undefined
    mode inside an argument passed to the application." and ends with
    [EXIT_FAILURE], whatever options follow. *)
Theorem undefined_mode_is_refused CL_GREEN RESET argv fuel p :
  (4 <= length argv)%nat ->
  nth 1 argv EmptyString <> "meter" ->
  nth 1 argv EmptyString <> "reflect" ->
  run CL_GREEN RESET argv fuel p =
  (exited Libc.EXIT_FAILURE,
   complained "Undefined mode inside an argument passed to the application." p).
Proof.
  intros Hargc Hmeter Hreflect. apply run_rejected. unfold argument_parser.
  replace (Z.of_nat (length argv) <? 4) with false
    by (symmetry; apply Z.ltb_ge; lia).
  apply String.eqb_neq in Hmeter, Hreflect. rewrite Hmeter, Hreflect.
  reflexivity.
Qed.

Lemma undefined_mode_is_refused_witness :
  run green reset shouted_argv 7 idle =
  (exited Libc.EXIT_FAILURE,
   complained "Undefined mode inside an argument passed to the application."
     idle).
Proof.
  apply (undefined_mode_is_refused green reset shouted_argv 7 idle).
  - cbn. lia.
  - discriminate.
  - discriminate.
Defined.

(** ** More on the reflector *)

Lemma octets_whole b : length b = 512%nat -> SocketEntity.octets b 512 = b.
Proof.
  intros H. unfold SocketEntity.octets. apply firstn_all2.
  change (Z.to_nat 512) with 512%nat. lia.
Qed.

Lemma echo_of b d :
  length b = 512%nat ->
  SocketEntity.octets (landed b (Some d)) 512 = firstn 512 d ++ skipn (length d) b.
Proof.
  intros Hb. destruct (echo_content b d Hb) as (_ & _ & Hlong & Hshort & _).
  destruct (Nat.le_gt_cases 512 (length d)) as [Hd|Hd].
  - rewrite (Hlong Hd), skipn_all2 by lia. now rewrite app_nil_r.
  - rewrite Hshort by lia. rewrite firstn_all2 by lia. reflexivity.
Qed.

(** On the wire a send, the next receive and the send after it: the second
    send carries the array as the first send left it and the receive
    changed it. *)
Lemma echoes_chain rs : forall buffer i e r,
  length buffer = 512%nat ->
  nth_error (echoes buffer rs) i = Some (sent e) ->
  nth_error (echoes buffer rs) (S i) = Some (received r) ->
  length e = 512%nat
  /\ nth_error (echoes buffer rs) (S (S i)) =
     Some (sent (SocketEntity.octets (landed e r) 512)).
Proof.
  induction rs as [|r0 rs IH]; intros buffer i e r Hb Hi Hnext.
  - destruct i; discriminate Hi.
  - assert (Hb' : length (landed buffer r0) = 512%nat)
      by (rewrite length_landed; exact Hb).
    destruct i as [|[|i]]; cbn [echoes nth_error] in Hi, Hnext |- *.
    + discriminate Hi.
    + injection Hi as <-. rewrite (octets_whole _ Hb').
      split; [exact Hb'|].
      destruct rs as [|r1 rs]; [discriminate Hnext|].
      cbn [echoes nth_error] in Hnext |- *. injection Hnext as ->. reflexivity.
    + exact (IH _ _ _ _ Hb' Hi Hnext).
Qed.

(** X8. The reflector never clears its array. The echo of its first
    datagram is the datagram's first 512 bytes followed by what the
    uninitialised array held behind them; every later echo is the
    datagram's first 512 bytes followed by the bytes of the echo before it,
    from the datagram's length on; after a failed receive the echo before
    it goes out once more. *)
Theorem reflector_echo_carries_old_bytes
        CL_GREEN RESET m_port fuel posix stk sin net sig :
  let p' := snd (Reflector_init CL_GREEN RESET m_port fuel
                   (start posix stk sin net sig)) in
  (forall d,
      nth_error (socket p') 1 = Some (received (Some d)) ->
      nth_error (socket p') 2 =
      Some (sent (firstn 512 d
                  ++ skipn (length d) (Libc.uninitialised 512 stk))))
  /\ (forall i e d,
        nth_error (socket p') i = Some (sent e) ->
        nth_error (socket p') (S i) = Some (received (Some d)) ->
        nth_error (socket p') (S (S i)) =
        Some (sent (firstn 512 d ++ skipn (length d) e)))
  /\ (forall i e,
        nth_error (socket p') i = Some (sent e) ->
        nth_error (socket p') (S i) = Some (received None) ->
        nth_error (socket p') (S (S i)) = Some (sent e)).
Proof.
  intros p'.
  destruct (Reflector_init_socket CL_GREEN RESET m_port fuel posix stk sin net sig)
    as (k & Hs).
  fold p' in Hs. rewrite Hs.
  pose proof (length_uninitialised 512 stk) as Hb.
  split; [|split].
  - intros d H. cbn [nth_error] in H |- *.
    destruct (firstn k net) as [|r0 rs]; [discriminate H|].
    cbn in H. injection H as ->. cbn [echoes nth_error].
    rewrite (echo_of _ d Hb). reflexivity.
  - intros i e d Hi Hnext.
    destruct i as [|i]; [discriminate Hi|].
    rewrite nth_error_next in Hi, Hnext |- *.
    destruct (echoes_chain _ _ _ _ _ Hb Hi Hnext) as (He & ->).
    rewrite (echo_of _ d He). reflexivity.
  - intros i e Hi Hnext.
    destruct i as [|i]; [discriminate Hi|].
    rewrite nth_error_next in Hi, Hnext |- *.
    destruct (echoes_chain _ _ _ _ _ Hb Hi Hnext) as (He & ->).
    cbn [landed]. rewrite (octets_whole _ He). reflexivity.
Qed.

(** A second, shorter datagram comes back with the tail of the first. *)
Example second_echo_carries_first :
  octets_sent (snd (run green reset reflect_9000 2
                      (start false stale []
                         [Some (bytes "secret"); Some (bytes "hi")] None)))
  = [bytes "secret" ++ repeat x55 506; bytes "hicret" ++ repeat x55 506].
Proof. vm_compute. reflexivity. Qed.

Lemma sends_echoes rs : forall buffer, length (sends (echoes buffer rs)) = length rs.
Proof.
  induction rs as [|r rs IH]; intros buffer; [reflexivity|].
  cbn. now rewrite IH.
Qed.

(** X9. The reflector sends once for every receive that completes, failed
    ones included, and only then: the sends are as many as the entries it
    has taken from the network. *)
Theorem reflector_sends_once_per_receive
        CL_GREEN RESET m_port fuel posix stk sin net sig :
  let p' := snd (Reflector_init CL_GREEN RESET m_port fuel
                   (start posix stk sin net sig)) in
  exists k,
    (k <= fuel)%nat
    /\ net = firstn k net ++ network p'
    /\ length (octets_sent p') = k
    /\ length (firstn k net) = k.
Proof.
  intros p'.
  destruct (Reflector_init_spec CL_GREEN RESET m_port fuel
              (start posix stk sin net sig))
    as (k & o & tail & Heq & Hk & Hl & _).
  subst p'. rewrite Heq. cbn [snd network start socket app] in *.
  exists k. split; [exact Hk|]. split; [symmetry; apply firstn_skipn|].
  unfold octets_sent. cbn [socket sends flat_map app].
  fold (sends (echoes (Libc.uninitialised 512 stk) (firstn k net))).
  rewrite sends_echoes, length_firstn. split; lia.
Qed.

(** X10. An interrupt during the reflector's receive number j + 1 ends the
    process with status 0 when exactly j echoes have gone out; the datagrams
    behind them are left unread. *)
Theorem reflector_interrupted_after
        CL_GREEN RESET m_port fuel posix stk sin net j :
  (j < fuel)%nat -> (j <= length net)%nat ->
  let r := Reflector_init CL_GREEN RESET m_port fuel
             (start posix stk sin net (Some j)) in
  fst r = halt (exited 0)
  /\ length (octets_sent (snd r)) = j
  /\ network (snd r) = skipn j net.
Proof.
  intros Hf Hn r.
  destruct (Reflector_init_spec CL_GREEN RESET m_port fuel
              (start posix stk sin net (Some j)))
    as (k & o & tail & Heq & Hk & Hl & Hend).
  subst r. rewrite Heq. cbn [fst snd network start socket sigint app] in *.
  destruct Hend as [(-> & -> & _ & H)|[(-> & -> & _ & _ & H)|(-> & [= <-] & _)]];
    try (specialize (H j eq_refl); lia).
  split; [reflexivity|]. split; [|reflexivity].
  unfold octets_sent. cbn [socket sends flat_map app].
  fold (sends (echoes (Libc.uninitialised 512 stk) (firstn j net))).
  rewrite sends_echoes, length_firstn. lia.
Qed.

Lemma reflector_interrupted_after_witness :
  let r := Reflector_init green reset 9000 9
             (start false stale [] [Some sequence_42; Some jumbo] (Some 1%nat)) in
  fst r = halt (exited 0)
  /\ length (octets_sent (snd r)) = 1%nat
  /\ network (snd r) = skipn 1 [Some sequence_42; Some jumbo].
Proof.
  apply (reflector_interrupted_after green reset 9000 9 false stale []
           [Some sequence_42; Some jumbo] 1); cbn; lia.
Defined.

(** ** More on the meter *)

Lemma taken_nothing n : taken n [] = ([], []).
Proof.
  unfold taken. destruct (Libc.to_int n <=? 1); [reflexivity|].
  destruct (Z.to_nat (Libc.to_int n - 1)); reflexivity.
Qed.

Lemma typed_lines_nothing n k : typed_lines n k [] = repeat [] k.
Proof.
  induction k as [|k IH]; [reflexivity|].
  cbn [typed_lines repeat]. rewrite taken_nothing. cbn [fst snd].
  now rewrite IH.
Qed.

Lemma probe_nothing n : probe n [] = zeros n.
Proof. unfold probe, zeros. cbn [app length]. now rewrite Nat.sub_0_r. Qed.

(** X11. The meter does not stop at the end of standard input: [fgets]
    stores nothing, every probe is all zeros, [m_probe_size] of them, and
    while its probes are answered the meter sends one in every turn. The
    statement is for probe sizes of at most [UDP_PAYLOAD_MAX]; the count of
    the turns is for receives that leave the array terminated. *)
Theorem meter_at_end_of_input
        CL_GREEN RESET host port n time fuel posix stk net sig :
  0 <= n <= UDP_PAYLOAD_MAX ->
  let p' := snd (Meter_init CL_GREEN RESET host port n time fuel
                   (start posix stk [] net sig)) in
  Forall (fun o => o = zeros n) (octets_sent p')
  /\ (sig = None -> (fuel <= length net)%nat ->
      Forall (terminated n) net ->
      octets_sent p' = repeat (zeros n) fuel).
Proof.
  intros Hn p'. assert (Hn0 : 0 <= n) by lia. split.
  - destruct (Meter_init_sends CL_GREEN RESET host port n time fuel
                posix stk [] net sig Hn0) as (k & Hs & _).
    fold p' in Hs. rewrite Hs, typed_lines_nothing. clear.
    induction k as [|k IH]; constructor; [apply probe_nothing|exact IH].
  - intros -> Hfuel _.
    destruct (Meter_init_answered_run CL_GREEN RESET host port n time fuel
                posix stk [] net None Hn0) as (_ & Hs & _);
      [discriminate|exact Hfuel|].
    fold p' in Hs. rewrite Hs, typed_lines_nothing. clear.
    induction fuel as [|fuel IH]; [reflexivity|].
    cbn [repeat map]. rewrite probe_nothing. f_equal. exact IH.
Qed.

Lemma meter_at_end_of_input_witness :
  0 <= 8 <= UDP_PAYLOAD_MAX
  /\ let p' := snd (Meter_init green reset "localhost" 9000 8 (Libc.atof "1") 3
                      (start false [] [] three_answers None)) in
     Forall (fun o => o = zeros 8) (octets_sent p')
     /\ (@None nat = None -> (3 <= length three_answers)%nat ->
         Forall (terminated 8) three_answers ->
         octets_sent p' = repeat (zeros 8) 3).
Proof.
  assert (Hn : 0 <= 8 <= UDP_PAYLOAD_MAX) by (unfold UDP_PAYLOAD_MAX; lia).
  split; [exact Hn|].
  exact (meter_at_end_of_input green reset "localhost" 9000 8 (Libc.atof "1") 3
           false [] three_answers None Hn).
Defined.

(** X12. Every probe of at least one byte ends in a zero byte: [fgets]
    fills at most [m_probe_size - 1] bytes of the zeroed array. *)
Theorem meter_probes_end_in_zero
        CL_GREEN RESET host port n time fuel posix stk sin net sig :
  0 < n ->
  Forall (fun o => nth_error o (Z.to_nat n - 1) = Some x00)
         (octets_sent (snd (Meter_init CL_GREEN RESET host port n time fuel
                              (start posix stk sin net sig)))).
Proof.
  intros Hn.
  destruct (Meter_init_sends CL_GREEN RESET host port n time fuel
              posix stk sin net sig) as (k & -> & _); [lia|].
  apply Forall_map.
  eapply Forall_impl; [|apply (typed_lines_short n k); lia].
  cbn beta. intros line Hline. unfold probe.
  rewrite nth_error_app2 by lia. apply nth_error_repeat. lia.
Qed.

Lemma meter_probes_end_in_zero_witness :
  0 < 8
  /\ Forall (fun o => nth_error o (Z.to_nat 8 - 1) = Some x00)
            (octets_sent (snd (Meter_init green reset "localhost" 9000 8
                                 (Libc.atof "1") 3
                                 (start false [] typed_abc three_answers None)))).
Proof.
  split; [lia|].
  apply (meter_probes_end_in_zero green reset "localhost" 9000 8
           (Libc.atof "1") 3 false [] typed_abc three_answers None).
  lia.
Defined.

(** X13. When no datagram ever comes back, the meter prints its banner and
    one prompt, sends one probe, the first line typed, and waits in the
    receive for good. The statement is for probe sizes of at most
    [UDP_PAYLOAD_MAX]. *)
Theorem meter_without_reflector
        CL_GREEN RESET host port n time fuel posix stk sin :
  0 <= n <= UDP_PAYLOAD_MAX -> (0 < fuel)%nat ->
  let r := Meter_init CL_GREEN RESET host port n time fuel
             (start posix stk sin [] None) in
  fst r = halt blocked
  /\ octets_sent (snd r) = [probe n (fst (taken n sin))]
  /\ stdout (snd r) =
     (("[METER]: " ++ CL_GREEN ++ "started" ++ RESET ++ endl)
      ++ "Please enter msg: ")%string.
Proof.
  intros Hn Hf r.
  destruct (Meter_init_spec CL_GREEN RESET host port n time fuel
              (start posix stk sin [] None) (proj1 Hn))
    as (k & o & tw & tail & Ho & Hw & Hout & _ & Hk & Hl & Hend).
  fold r in Ho, Hw, Hout.
  cbn [start socket stdin network sigint stdout length app] in Hw, Hout, Hl, Hend.
  assert (k = 0%nat) as -> by lia.
  destruct Hend as [(_ & <- & _)|[(-> & _ & _ & -> & -> & _)
                   |[(_ & Hs & _)|(_ & Hs & _)]]];
    try discriminate Hs; try lia.
  split; [exact Ho|]. split.
  - unfold octets_sent. rewrite Hw. reflexivity.
  - rewrite Hout. reflexivity.
Qed.

Lemma meter_without_reflector_witness :
  0 <= 8 <= UDP_PAYLOAD_MAX /\ (0 < 3)%nat
  /\ let r := Meter_init green reset "localhost" 9000 8 (Libc.atof "1") 3
                (start false [] typed_abc [] None) in
     fst r = halt blocked
     /\ octets_sent (snd r) = [probe 8 (fst (taken 8 typed_abc))]
     /\ stdout (snd r) =
        (("[METER]: " ++ green ++ "started" ++ reset ++ endl)
         ++ "Please enter msg: ")%string.
Proof.
  assert (Hn : 0 <= 8 <= UDP_PAYLOAD_MAX) by (unfold UDP_PAYLOAD_MAX; lia).
  split; [exact Hn|]. split; [lia|].
  apply (meter_without_reflector green reset "localhost" 9000 8 (Libc.atof "1")
           3 false [] typed_abc); [exact Hn|lia].
Defined.

(** ** The meter and the reflector together *)

Lemma c_str_zero_after line m :
  Forall (fun b => b <> x00) line -> (0 < m)%nat ->
  Libc.c_str (line ++ repeat x00 m) = line.
Proof.
  intros Hline Hm. induction Hline as [|b line Hb _ IH].
  - destruct m; [lia|reflexivity].
  - cbn [app Libc.c_str]. destruct (Byte.eqb b x00) eqn:E.
    + apply Byte.byte_dec_bl in E. contradiction.
    + now rewrite IH.
Qed.

Lemma c_str_probe n line :
  Forall (fun b => b <> x00) line ->
  (length line < Z.to_nat n)%nat ->
  Libc.c_str (probe n line) = line.
Proof. intros Hline Hlen. apply c_str_zero_after; [exact Hline|lia]. Qed.

(** The reflector's echo of a probe of at most 512 bytes, received by the
    meter into its zeroed array, is the probe. *)
Lemma reply_of_echo n b probe0 :
  0 <= n -> (Z.to_nat n <= 512)%nat ->
  length b = 512%nat -> length probe0 = Z.to_nat n ->
  reply n (Some (SocketEntity.octets (landed b (Some probe0)) 512)) = probe0.
Proof.
  intros Hn Hsmall Hb Hp.
  rewrite (echo_of b probe0 Hb), (firstn_all2 (n := 512)) by lia.
  unfold reply, SocketEntity.arrive, zeros.
  rewrite firstn_app, Hp, Nat.sub_diag, firstn_O, app_nil_r.
  rewrite firstn_all2 by lia.
  rewrite store_full by (rewrite repeat_length; lia).
  rewrite repeat_length. apply firstn_all2. lia.
Qed.

(** X14. A probe of at most 512 bytes survives the round trip: when the
    reflector's echo of the meter's probe is what the meter receives, the
    line "Feedback: " shows what was typed, provided the typed line holds no
    zero byte. *)
Theorem feedback_shows_typed_line
        CL_GREEN RESET host port n time m_port
        posix stk sin posix' stk' sin' probe0 echo :
  0 < n <= 512 ->
  Forall (fun b => b <> x00) (fst (taken n sin)) ->
  octets_sent (snd (Meter_init CL_GREEN RESET host port n time 1
                      (start posix stk sin [] None))) = [probe0] ->
  octets_sent (snd (Reflector_init CL_GREEN RESET m_port 1
                      (start posix' stk' sin' [Some probe0] None))) = [echo] ->
  stdout (snd (Meter_init CL_GREEN RESET host port n time 1
                 (start posix stk sin [Some echo] None))) =
  (("[METER]: " ++ CL_GREEN ++ "started" ++ RESET ++ endl)
   ++ "Please enter msg: "
   ++ "Feedback: " ++ string_of_list_byte (fst (taken n sin)) ++ endl)%string.
Proof.
  intros Hn Hline Hprobe Hecho.
  (* the probe *)
  destruct (Meter_init_spec CL_GREEN RESET host port n time 1
              (start posix stk sin [] None)) as
    (k0 & o0 & tw0 & tail0 & _ & Hw & _ & _ & Hk & Hl & Hend); [lia|].
  cbn [start socket stdin network sigint length app] in Hw, Hl, Hend.
  assert (k0 = 0%nat) as -> by lia.
  destruct Hend as [(_ & E & _)|[(_ & _ & _ & -> & _)
                   |[(_ & Hs & _)|(_ & Hs & _)]]];
    try discriminate Hs; try discriminate E.
  unfold octets_sent in Hprobe. rewrite Hw in Hprobe.
  cbn in Hprobe. injection Hprobe as <-.
  pose proof (taken_length n sin) as Hshort.
  assert (Hplen : length (probe n (fst (taken n sin))) = Z.to_nat n)
    by (apply length_probe; lia).
  (* its echo *)
  destruct (Reflector_init_spec CL_GREEN RESET m_port 1
              (start posix' stk' sin' [Some (probe n (fst (taken n sin)))] None))
    as (k1 & o1 & tail1 & Heq & Hk' & Hl' & Hend).
  cbn [start socket stdin network sigint length app] in Heq, Hl', Hend.
  destruct Hend as [(_ & -> & _)|[(_ & -> & Hf & _)|(_ & Hs & _)]];
    try discriminate Hs; try lia.
  rewrite Heq in Hecho. unfold octets_sent in Hecho.
  cbn [snd socket sends flat_map app firstn echoes] in Hecho.
  injection Hecho as <-.
  (* what the meter prints *)
  destruct (Meter_init_spec CL_GREEN RESET host port n time 1
              (start posix stk sin
                 [Some (SocketEntity.octets
                          (landed (Libc.uninitialised 512 stk')
                                  (Some (probe n (fst (taken n sin))))) 512)]
                 None)) as
    (k2 & o2 & tw2 & tail2 & _ & _ & Hout & _ & Hk2 & Hl2 & Hend); [lia|].
  cbn [start socket stdin network sigint stdout length app] in Hout, Hl2, Hend.
  destruct Hend as [(_ & -> & _ & -> & _)|[(_ & -> & Hf & _)
                   |[(_ & Hs & _)|(_ & Hs & _)]]];
    try discriminate Hs; try lia.
  change (SocketEntity.arrive (Libc.uninitialised 512 stk') 512
            (probe n (fst (taken n sin))))
    with (landed (Libc.uninitialised 512 stk')
            (Some (probe n (fst (taken n sin))))).
  rewrite Hout. cbn [firstn chat String.append]. unfold feedback.
  rewrite reply_of_echo; try lia; [|apply length_uninitialised].
  rewrite c_str_probe by (try exact Hline; specialize (Hshort ltac:(lia)); lia).
  rewrite !append_nil_r. reflexivity.
Qed.

Lemma feedback_shows_typed_line_witness :
  stdout (snd (Meter_init green reset "localhost" 9000 8 (Libc.atof "1") 1
                 (start false [] typed_abc
                    [Some (typed_abc ++ repeat x00 4 ++ repeat x55 504)] None))) =
  (("[METER]: " ++ green ++ "started" ++ reset ++ endl)
   ++ "Please enter msg: "
   ++ "Feedback: " ++ string_of_list_byte (fst (taken 8 typed_abc)) ++ endl)%string.
Proof.
  apply (feedback_shows_typed_line green reset "localhost" 9000 8 (Libc.atof "1")
           9000 false [] typed_abc false stale []
           (typed_abc ++ repeat x00 4)
           (typed_abc ++ repeat x00 4 ++ repeat x55 504)).
  - lia.
  - vm_compute. repeat constructor; discriminate.
  - vm_compute. reflexivity.
  - vm_compute. reflexivity.
Defined.

(** ** More on the meter's turns *)

(** X15. An interrupt ends the meter with status 0 wherever it waits: one
    that comes during the [fgets] of turn k + 1 finds k probes sent, one
    that comes during the receive of that turn finds k + 1 probes sent. *)
Theorem meter_interrupted_after
        CL_GREEN RESET host port n time fuel posix stk sin net j :
  0 <= n -> (j < 2 * fuel)%nat -> (j < 2 * length net + 2)%nat ->
  let r := Meter_init CL_GREEN RESET host port n time fuel
             (start posix stk sin net (Some j)) in
  fst r = halt (exited 0)
  /\ (forall k, j = (2 * k)%nat -> length (octets_sent (snd r)) = k)
  /\ (forall k, j = (2 * k + 1)%nat -> length (octets_sent (snd r)) = S k).
Proof.
  intros Hn Hf Hnet r.
  destruct (Meter_init_spec CL_GREEN RESET host port n time fuel
              (start posix stk sin net (Some j)) Hn)
    as (k & o & tw & tail & Ho & Hw & _ & _ & Hk & Hl & Hend).
  fold r in Ho, Hw.
  cbn [start socket stdin network sigint app] in Hw, Hl, Hend.
  assert (Hcount : length (octets_sent (snd r)) = (k + length (sends tw))%nat).
  { unfold octets_sent. rewrite Hw. cbn [sends flat_map app].
    fold (sends (probes n sin (firstn k net) ++ tw)).
    rewrite sends_app, length_app, sends_probes, length_map.
    f_equal. rewrite length_typed_lines, length_firstn. lia. }
  destruct Hend as [(-> & -> & _ & _ & H)|[(-> & -> & _ & _ & _ & H)
                   |[(-> & [= ->] & _ & -> & _)|(-> & [= ->] & _ & -> & _)]]];
    try (specialize (H j eq_refl); lia).
  - split; [exact Ho|]. rewrite Hcount. cbn [sends flat_map length].
    split; intros k' Hk'; lia.
  - split; [exact Ho|]. rewrite Hcount. cbn [sends flat_map length app].
    split; intros k' Hk'; lia.
Qed.

Lemma meter_interrupted_after_witness :
  0 <= 8 /\ (3 < 2 * 5)%nat /\ (3 < 2 * length three_answers + 2)%nat
  /\ let r := Meter_init green reset "localhost" 9000 8 (Libc.atof "1") 5
                (start false [] typed_abc three_answers (Some 3%nat)) in
     fst r = halt (exited 0)
     /\ (forall k, 3%nat = (2 * k)%nat -> length (octets_sent (snd r)) = k)
     /\ (forall k, 3%nat = (2 * k + 1)%nat ->
         length (octets_sent (snd r)) = S k).
Proof.
  split; [lia|]. split; [lia|]. split; [cbn; lia|].
  apply (meter_interrupted_after green reset "localhost" 9000 8 (Libc.atof "1")
           5 false [] typed_abc three_answers 3); cbn; lia.
Defined.

Lemma read_line_long k : forall stream,
  (k <= length stream)%nat ->
  Forall (fun b => b <> x0a) (firstn k stream) ->
  Libc.read_line k stream = (firstn k stream, skipn k stream).
Proof.
  induction k as [|k IH]; intros [|b rest] Hlen Hline;
    try reflexivity; try (cbn in Hlen; lia).
  cbn [firstn] in Hline. inversion Hline as [|? ? Hb Hrest]; subst.
  cbn [Libc.read_line firstn skipn].
  destruct (Byte.eqb b x0a) eqn:E;
    [apply Byte.byte_dec_bl in E; contradiction|].
  rewrite IH; [reflexivity|cbn in Hlen; lia|exact Hrest].
Qed.

(** The meter's first turn when nothing comes back: the state it waits in. *)
Lemma Meter_init_unanswered CL_GREEN RESET host port n time fuel posix stk sin :
  0 <= n -> (0 < fuel)%nat ->
  Meter_init CL_GREEN RESET host port n time fuel (start posix stk sin [] None) =
  (halt blocked,
   mkProcess posix stk (snd (taken n sin)) [] None
     (("[METER]: " ++ CL_GREEN ++ "started" ++ RESET ++ endl)
      ++ "Please enter msg: ")%string
     EmptyString
     [connected host port; sent (probe n (fst (taken n sin)))]).
Proof.
  intros Hn Hf. destruct fuel as [|fuel]; [lia|].
  unfold Meter_init, cout, SocketEntity.setup_connection, on_wire, automatic.
  unfold bind at 1 2 3. fields. cbn [Meter_loop]. unfold bind at 1.
  rewrite Meter_body_spec; [|exact Hn|apply length_uninitialised].
  reflexivity.
Qed.

(** X16. A typed line that does not fit is cut, not refused: when the first
    [m_probe_size - 1] bytes on standard input hold no newline, the probe
    carries exactly these bytes and a final zero, and the rest of the line
    stays on standard input for the next turn. The statement is for probe
    sizes of at most [UDP_PAYLOAD_MAX]. *)
Theorem long_line_is_split CL_GREEN RESET host port n time fuel posix stk sin :
  2 <= n <= UDP_PAYLOAD_MAX -> (0 < fuel)%nat ->
  (Z.to_nat n - 1 <= length sin)%nat ->
  Forall (fun b => b <> x0a) (firstn (Z.to_nat n - 1) sin) ->
  let r := Meter_init CL_GREEN RESET host port n time fuel
             (start posix stk sin [] None) in
  octets_sent (snd r) = [firstn (Z.to_nat n - 1) sin ++ [x00]]
  /\ stdin (snd r) = skipn (Z.to_nat n - 1) sin.
Proof.
  intros Hn Hf Hlen Hline r. subst r. unfold UDP_PAYLOAD_MAX in Hn.
  rewrite Meter_init_unanswered by lia.
  assert (Hint : Libc.to_int n = n).
  { unfold Libc.to_int. rewrite Z.mod_small by lia. lia. }
  assert (Htaken : taken n sin =
                   (firstn (Z.to_nat n - 1) sin, skipn (Z.to_nat n - 1) sin)).
  { unfold taken. rewrite Hint.
    replace (n <=? 1) with false by (symmetry; apply Z.leb_gt; lia).
    replace (Z.to_nat (n - 1)) with (Z.to_nat n - 1)%nat by lia.
    apply read_line_long; assumption. }
  cbn [snd stdin]. rewrite Htaken. cbn [fst snd]. split; [|reflexivity].
  unfold octets_sent. cbn [socket sends flat_map app]. f_equal.
  unfold probe. f_equal. rewrite length_firstn.
  replace (Z.to_nat n - Nat.min (Z.to_nat n - 1) (length sin))%nat with 1%nat
    by lia.
  reflexivity.
Qed.

Lemma long_line_is_split_witness :
  2 <= 3 <= UDP_PAYLOAD_MAX /\ (0 < 2)%nat
  /\ let r := Meter_init green reset "localhost" 9000 3 (Libc.atof "1") 2
                (start false [] typed_abc [] None) in
     octets_sent (snd r) = [firstn (Z.to_nat 3 - 1) typed_abc ++ [x00]]
     /\ stdin (snd r) = skipn (Z.to_nat 3 - 1) typed_abc.
Proof.
  assert (Hn : 2 <= 3 <= UDP_PAYLOAD_MAX) by (unfold UDP_PAYLOAD_MAX; lia).
  split; [exact Hn|]. split; [lia|].
  apply (long_line_is_split green reset "localhost" 9000 3 (Libc.atof "1") 2
           false [] typed_abc).
  - exact Hn.
  - lia.
  - cbn. lia.
  - vm_compute. repeat constructor; discriminate.
Defined.
